(** * stringStorage: the storage manager of [database.py]

    A shallow embedding of [DatabaseManager] (module [database.py]) and of the
    part of the SQLite engine its five operations rely on, followed by the
    properties of the storage manager.

    The table [strings] is a list of rows kept in rowid order, which is the
    order a full table scan visits them.  [CURRENT_TIMESTAMP] is an input of
    every call: a text ['YYYY-MM-DD HH:MM:SS'], whose text order is the
    chronological one, modelled as a number of seconds.  A Python [str] is a
    [string] whose every [ascii] stands for one character.

    The engine follows SQLite as documented and as it behaves: a statement
    that violates a constraint changes nothing; AUTOINCREMENT gives a new row
    a rowid above every rowid in use; [length(X)] of a text is the number of
    characters before the first NUL character; the sorter behind ORDER BY
    keeps rows with equal keys in scan order, with and without LIMIT. *)

From Stdlib Require Import ZArith List String Ascii Bool Lia Sorted Permutation.
Import ListNotations.
Local Open Scope Z_scope.
Local Open Scope list_scope.

(** ** Python results *)

Inductive exn : Type :=
| IntegrityError
| TypeError.

Inductive outcome (A : Type) : Type :=
| Returns (a : A)
| Raises (e : exn).
Arguments Returns {A} a.
Arguments Raises {A} e.

(** [x or 0] for an [Optional[int]]: [None] and [0] are both falsy. *)
Definition or_0 (x : option nat) : nat :=
  match x with
  | Some (S n) => S n
  | _ => O
  end.

(** [len(s)] of a [str]: the number of characters. *)
Definition len (s : string) : nat := String.length s.

(** ** The SQLite engine, as far as the manager uses it *)

Module Sqlite.

Definition timestamp := Z.

(** A row of
    [strings(id INTEGER PRIMARY KEY AUTOINCREMENT, index_key TEXT UNIQUE NOT NULL,
             data TEXT NOT NULL, created_at TIMESTAMP DEFAULT CURRENT_TIMESTAMP,
             updated_at TIMESTAMP DEFAULT CURRENT_TIMESTAMP)]. *)
Record row : Type := mk_row {
  id : Z;
  index_key : string;
  data : string;
  created_at : timestamp;
  updated_at : timestamp
}.

(** The database file: the table in rowid order, and the counter that
    AUTOINCREMENT keeps in [sqlite_sequence]. *)
Record database : Type := mk_database {
  strings : list row;
  sqlite_sequence : Z
}.

Definition empty : database := mk_database [] 0.

(** [WHERE index_key = ?] *)
Definition key_is (k : string) (r : row) : bool := String.eqb (index_key r) k.

Definition max_rowid (t : list row) : Z :=
  fold_right (fun r m => Z.max (id r) m) 0 t.

(** [INSERT INTO strings (index_key, data) VALUES (?, ?)]: refused by the
    UNIQUE constraint when a row has the key; otherwise the new row gets the
    next rowid and both timestamps default to the statement's
    CURRENT_TIMESTAMP. *)
Definition INSERT (now : timestamp) (k v : string) (db : database)
  : exn + database :=
  if existsb (key_is k) (strings db) then inl IntegrityError
  else
    let i := Z.max (max_rowid (strings db)) (sqlite_sequence db) + 1 in
    inr (mk_database (strings db ++ [mk_row i k v now now]) i).

(** [UPDATE strings SET data = ?, updated_at = CURRENT_TIMESTAMP
     WHERE index_key = ?] *)
Definition set_data (now : timestamp) (v : string) (r : row) : row :=
  mk_row (id r) (index_key r) v (created_at r) now.

Definition UPDATE (now : timestamp) (v k : string) (db : database) : database :=
  mk_database
    (map (fun r => if key_is k r then set_data now v r else r) (strings db))
    (sqlite_sequence db).

(** [DELETE FROM strings WHERE index_key = ?] *)
Definition DELETE (k : string) (db : database) : database :=
  mk_database (filter (fun r => negb (key_is k r)) (strings db))
              (sqlite_sequence db).

(** [SELECT ... FROM strings WHERE index_key = ?] *)
Definition SELECT_WHERE (k : string) (db : database) : list row :=
  filter (key_is k) (strings db).

(** [SELECT COUNT( * ) FROM strings WHERE index_key = ?] and
    [SELECT COUNT( * ) FROM strings]: a result set of one row. *)
Definition SELECT_COUNT_WHERE (k : string) (db : database) : list nat :=
  [List.length (filter (key_is k) (strings db))].

Definition SELECT_COUNT (db : database) : list nat :=
  [List.length (strings db)].

(** [LENGTH(X)] of a text value: the number of characters before the first
    NUL character. *)
Fixpoint LENGTH (s : string) : nat :=
  match s with
  | EmptyString => O
  | String c s' => if Ascii.eqb c Ascii.zero then O else S (LENGTH s')
  end.

(** [SUM] over a column: NULL over no rows. *)
Definition SUM (l : list nat) : option nat :=
  match l with
  | [] => None
  | _ :: _ => Some (fold_right Nat.add O l)
  end.

(** [SELECT SUM(LENGTH(data)) FROM strings]: a result set of one row. *)
Definition SELECT_SUM_LENGTH (db : database) : list (option nat) :=
  [SUM (map (fun r => LENGTH (data r)) (strings db))].

(** [ORDER BY created_at DESC]: the sorter is stable, so rows with equal
    [created_at] stay in scan (rowid) order. *)
Fixpoint insert_desc (r : row) (l : list row) : list row :=
  match l with
  | [] => [r]
  | x :: l' =>
      if created_at x <=? created_at r then r :: x :: l'
      else x :: insert_desc r l'
  end.

Definition ORDER_BY_created_at_DESC (t : list row) : list row :=
  fold_right insert_desc [] t.

(** [LIMIT 1] *)
Definition LIMIT_1 (l : list row) : list row := firstn 1 l.

(** [cursor.fetchone()] *)
Definition fetchone {A : Type} (result_set : list A) : option A :=
  hd_error result_set.

(** *** Vocabulary for statements about tables *)

(** The UNIQUE constraint on [index_key]. *)
Definition UNIQUE_index_key (db : database) : Prop :=
  NoDup (map index_key (strings db)).

(** Whether a row with key [k] is in the table. *)
Definition has_key (k : string) (db : database) : bool :=
  existsb (key_is k) (strings db).

(** The rows of the other keys, in table order. *)
Definition others (key : string) (db : database) : list row :=
  filter (fun r => negb (key_is key r)) (strings db).

(** The table is in rowid order. *)
Definition rowid_order (db : database) : Prop :=
  StronglySorted (fun a b => id a < id b) (strings db).

(** Newest first. *)
Definition newer_or_equal (a b : row) : Prop := created_at b <= created_at a.

(** The NUL character as a one-character string, and the strings without
    it. *)
Definition NUL : string := String Ascii.zero EmptyString.

Fixpoint no_NUL (s : string) : bool :=
  match s with
  | EmptyString => true
  | String c s' => negb (Ascii.eqb c Ascii.zero) && no_NUL s'
  end.

End Sqlite.

(** ** The storage manager: class [DatabaseManager] *)

Module DatabaseManager.
Import Sqlite.

(** [self]: the manager only holds the path of the database file. *)
Record t : Type := mk_manager { database_path : string }.

(** [init_database]: [CREATE TABLE IF NOT EXISTS] keeps an existing table and
    creates an empty one otherwise. *)
Definition init_database (file : option database) : database :=
  match file with
  | Some db => db
  | None => Sqlite.empty
  end.

(** The dict [store_string] returns. *)
Record store_result : Type := mk_store_result {
  action : string;
  message : string;
  status_code : Z;
  index : string;
  length : nat
}.

Definition dquote : string := String (ascii_of_nat 34) EmptyString.

Definition message_created (index : string) : string :=
  ("Строка сохранена под индексом " ++ dquote ++ index ++ dquote)%string.

Definition message_updated (index : string) : string :=
  ("Строка обновлена под индексом " ++ dquote ++ index ++ dquote)%string.

(** [store_string]: try the INSERT; on [sqlite3.IntegrityError] run the UPDATE
    instead; commit; add the key and [len(data)] to the result. *)
Definition store_string (now : timestamp) (index data : string) (db : database)
  : outcome store_result * database :=
  match INSERT now index data db with
  | inr db' =>
      (Returns (mk_store_result "created" (message_created index) 201
                                index (len data)), db')
  | inl IntegrityError =>
      (Returns (mk_store_result "updated" (message_updated index) 200
                                index (len data)), UPDATE now data index db)
  | inl e => (Raises e, db)
  end.

(** The two dicts a store can return. *)
Definition created_result (index data : string) : store_result :=
  mk_store_result "created" (message_created index) 201 index (len data).

Definition updated_result (index data : string) : store_result :=
  mk_store_result "updated" (message_updated index) 200 index (len data).

(** The dict [get_string] returns for a row. *)
Record record : Type := mk_record {
  rec_index : string;
  rec_data : string;
  rec_created_at : timestamp;
  rec_updated_at : timestamp
}.

Definition record_of_row (r : row) : record :=
  mk_record (index_key r) (data r) (created_at r) (updated_at r).

(** [get_string]: [None] when [fetchone()] finds no row. *)
Definition get_string (index : string) (db : database)
  : outcome (option record) * database :=
  match fetchone (SELECT_WHERE index db) with
  | None => (Returns None, db)
  | Some r => (Returns (Some (record_of_row r)), db)
  end.

(** [delete_string]: [count = cursor.fetchone()[0]], where subscripting [None]
    would raise [TypeError]; nothing is deleted or committed when the count
    is 0. *)
Definition delete_string (index : string) (db : database)
  : outcome bool * database :=
  match fetchone (SELECT_COUNT_WHERE index db) with
  | None => (Raises TypeError, db)
  | Some count =>
      if Nat.eqb count 0 then (Returns false, db)
      else (Returns true, DELETE index db)
  end.

(** An element of the list [list_all_indices] returns. *)
Record entry : Type := mk_entry {
  ent_index : string;
  ent_created_at : timestamp;
  ent_updated_at : timestamp;
  data_length : nat
}.

Definition entry_of_row (r : row) : entry :=
  mk_entry (index_key r) (created_at r) (updated_at r) (LENGTH (data r)).

Definition list_all_indices (db : database)
  : outcome (list entry) * database :=
  let rows := ORDER_BY_created_at_DESC (strings db) in
  (Returns (map entry_of_row rows), db).

(** The dict [get_statistics] returns; the key [latest_record] is set only
    when the third query yields a row. *)
Record latest : Type := mk_latest {
  latest_index : string;
  latest_created_at : timestamp
}.

Record statistics : Type := mk_statistics {
  total_records : nat;
  total_data_size : nat;
  database_file : string;
  database_exists : bool;
  latest_record : option latest
}.

(** [get_statistics]; [path_exists] is what [os.path.exists] answers for the
    database path. *)
Definition get_statistics (self : t) (path_exists : bool) (db : database)
  : outcome statistics * database :=
  match fetchone (SELECT_COUNT db) with
  | None => (Raises TypeError, db)
  | Some total_count =>
      match fetchone (SELECT_SUM_LENGTH db) with
      | None => (Raises TypeError, db)
      | Some sum =>
          let total_size := or_0 sum in
          let latest_row :=
            fetchone (LIMIT_1 (ORDER_BY_created_at_DESC (strings db))) in
          (Returns (mk_statistics total_count total_size
                      (database_path self) path_exists
                      (match latest_row with
                       | Some r => Some (mk_latest (index_key r) (created_at r))
                       | None => None
                       end)), db)
      end
  end.

End DatabaseManager.

(** ** Calls in sequence *)

Module Service.
Import Sqlite DatabaseManager.

Inductive op : Type :=
| Upsert (key value : string)
| Get (key : string)
| Delete (key : string)
| ListAll
| Stats.

Inductive response : Type :=
| Stored (r : store_result)
| Fetched (r : option record)
| Deleted (b : bool)
| Listed (l : list entry)
| Aggregated (s : statistics).

Definition lift {A : Type} (f : A -> response) (x : outcome A * database)
  : outcome response * database :=
  match x with
  | (Returns a, db) => (Returns (f a), db)
  | (Raises e, db) => (Raises e, db)
  end.

(** What a call reads from outside the database file. *)
Record environment : Type := mk_environment {
  CURRENT_TIMESTAMP : timestamp;
  path_exists : bool
}.

Definition exec (self : DatabaseManager.t) (env : environment) (o : op)
  (db : database) : outcome response * database :=
  match o with
  | Upsert k v => lift Stored (store_string (CURRENT_TIMESTAMP env) k v db)
  | Get k => lift Fetched (get_string k db)
  | Delete k => lift Deleted (delete_string k db)
  | ListAll => lift Listed (list_all_indices db)
  | Stats => lift Aggregated (get_statistics self (path_exists env) db)
  end.

(** [reachable self now db]: [db] is the table after some sequence of calls
    on the empty table, made while the clock read at most [now] and never
    went back between two calls. *)
Inductive reachable (self : DatabaseManager.t) : timestamp -> database -> Prop :=
| reachable_init : forall now, reachable self now (init_database None)
| reachable_exec : forall now db env o,
    reachable self now db ->
    now <= CURRENT_TIMESTAMP env ->
    reachable self (CURRENT_TIMESTAMP env) (snd (exec self env o db)).

(** Every timestamp of the table is in the past, and no row was updated
    before it was created. *)
Definition timestamps_ok (now : timestamp) (db : database) : Prop :=
  Forall (fun r => created_at r <= updated_at r /\ updated_at r <= now)
         (strings db).

(** A manager and a table to try statements on: the table after
    [store("a", "xx")] at time 5, [store("b", "y")] at time 6 and
    [store("a", "z")] at time 9. *)
Definition demo_manager : DatabaseManager.t := mk_manager "strings.db".

Definition demo_database : database :=
  snd (exec demo_manager (mk_environment 9 true) (Upsert "a" "z")
    (snd (exec demo_manager (mk_environment 6 true) (Upsert "b" "y")
      (snd (exec demo_manager (mk_environment 5 true) (Upsert "a" "xx")
        (init_database None)))))).

End Service.

(** ** The configuration: module [config.py] *)

Module ConfigModule.

(** The process environment, as [os.getenv] reads it. *)
Definition environ : Type := string -> option string.

Definition getenv (env : environ) (name default : string) : string :=
  match env name with
  | Some v => v
  | None => default
  end.

(** The attributes a configuration class resolves to. *)
Record t : Type := mk_config {
  DEBUG : bool;
  TESTING : bool;
  HOST : string;
  PORT : Z;
  DATABASE_PATH : string;
  LOG_LEVEL : string;
  LOG_FORMAT : string
}.

Definition Config : t :=
  mk_config true false "0.0.0.0" 5000 "strings.db" "INFO"
            "%(asctime)s - %(name)s - %(levelname)s - %(message)s".

(** The subclasses override some attributes and inherit the others. *)
Definition DevelopmentConfig : t :=
  mk_config true (TESTING Config) (HOST Config) (PORT Config)
            "dev_strings.db" "DEBUG" (LOG_FORMAT Config).

Definition ProductionConfig (env : environ) : t :=
  mk_config false (TESTING Config) "127.0.0.1" (PORT Config)
            (getenv env "DATABASE_PATH" "prod_strings.db") "WARNING"
            (LOG_FORMAT Config).

Definition TestingConfig : t :=
  mk_config true true (HOST Config) (PORT Config)
            ":memory:" "DEBUG" (LOG_FORMAT Config).

Definition config_map (env : environ) : list (string * t) :=
  [ ("development"%string, DevelopmentConfig);
    ("production"%string, ProductionConfig env);
    ("testing"%string, TestingConfig);
    ("default"%string, DevelopmentConfig) ].

(** [d.get(key, default)] *)
Fixpoint dict_get {V : Type} (d : list (string * V)) (key : string) (default : V)
  : V :=
  match d with
  | [] => default
  | (k, v) :: d' => if String.eqb k key then v else dict_get d' key default
  end.

(** The name [get_config] looks up: the argument, or [FLASK_ENV], or
    ["default"]. *)
Definition config_name_of (env : environ) (config_name : option string) : string :=
  match config_name with
  | None => getenv env "FLASK_ENV" "default"
  | Some n => n
  end.

Definition get_config (env : environ) (config_name : option string) : t :=
  dict_get (config_map env) (config_name_of env config_name) DevelopmentConfig.

End ConfigModule.

(** ** The routes: module [routes.py] *)

Module Routes.
Import Sqlite.

(** [request.args]: the query parameters in the order of the URL;
    [request.args.get(name)] is the first value given for the name. *)
Definition args : Type := list (string * string).

Fixpoint args_get (name : string) (a : args) : option string :=
  match a with
  | [] => None
  | (k, v) :: a' => if String.eqb k name then Some v else args_get name a'
  end.

(** The JSON bodies the routes answer with. *)
Inductive json : Type :=
| ErrorBody (error : string)
| StoreBody (result : DatabaseManager.store_result)
| RecordBody (result : DatabaseManager.record)
| ListBody (indices : list DatabaseManager.entry) (count : nat)
| MessageBody (message : string)
| StatsBody (stats : DatabaseManager.statistics)
| InfoBody (message database : string) (endpoints : list (string * string))
           (usage : string).

(** A body and its HTTP status. *)
Definition response : Type := (json * Z)%type.

Definition status (r : response) : Z := snd r.

Definition create_error_response (message : string) (status_code : Z) : response :=
  (ErrorBody message, status_code).

Definition create_success_response (data : json) (status_code : Z) : response :=
  (data, status_code).

(** [db_manager = DatabaseManager()]: the default path. *)
Definition db_manager : DatabaseManager.t :=
  DatabaseManager.mk_manager "strings.db".

(** [str(e)] of the exceptions the manager can raise. *)
Definition str (e : exn) : string :=
  match e with
  | IntegrityError => "UNIQUE constraint failed: strings.index_key"
  | TypeError => "'NoneType' object is not subscriptable"
  end.

Definition index_missing : string := "Параметр index не найден".

Definition data_missing : string := "Параметр data не найден или пустой".

Definition not_found (index : string) : string :=
  ("Строка с индексом " ++ DatabaseManager.dquote ++ index
     ++ DatabaseManager.dquote ++ " не найдена")%string.

Definition deleted (index : string) : string :=
  ("Строка с индексом " ++ DatabaseManager.dquote ++ index
     ++ DatabaseManager.dquote ++ " удалена")%string.

(** [POST /store]: [index] may be empty but not missing; [data] may be
    neither ([if not data]). *)
Definition store_string (now : timestamp) (a : args) (db : database)
  : response * database :=
  match args_get "index" a with
  | None => (create_error_response index_missing 400, db)
  | Some index =>
      match args_get "data" a with
      | None | Some EmptyString => (create_error_response data_missing 400, db)
      | Some data =>
          match DatabaseManager.store_string now index data db with
          | (Returns result, db') =>
              (create_success_response (StoreBody result)
                 (DatabaseManager.status_code result), db')
          | (Raises e, db') => (create_error_response (str e) 500, db')
          end
      end
  end.

(** [GET /get] *)
Definition get_string (a : args) (db : database) : response * database :=
  match args_get "index" a with
  | None => (create_error_response index_missing 400, db)
  | Some index =>
      match DatabaseManager.get_string index db with
      | (Returns None, db') => (create_error_response (not_found index) 404, db')
      | (Returns (Some result), db') =>
          (create_success_response (RecordBody result) 200, db')
      | (Raises e, db') => (create_error_response (str e) 500, db')
      end
  end.

(** [GET /list] *)
Definition list_indices (db : database) : response * database :=
  match DatabaseManager.list_all_indices db with
  | (Returns indices, db') =>
      (create_success_response (ListBody indices (List.length indices)) 200, db')
  | (Raises e, db') => (create_error_response (str e) 500, db')
  end.

(** [DELETE /delete] *)
Definition delete_string (a : args) (db : database) : response * database :=
  match args_get "index" a with
  | None => (create_error_response index_missing 400, db)
  | Some index =>
      match DatabaseManager.delete_string index db with
      | (Returns false, db') => (create_error_response (not_found index) 404, db')
      | (Returns true, db') =>
          (create_success_response (MessageBody (deleted index)) 200, db')
      | (Raises e, db') => (create_error_response (str e) 500, db')
      end
  end.

(** [GET /stats] *)
Definition get_stats (path_exists : bool) (db : database) : response * database :=
  match DatabaseManager.get_statistics db_manager path_exists db with
  | (Returns stats, db') => (create_success_response (StatsBody stats) 200, db')
  | (Raises e, db') => (create_error_response (str e) 500, db')
  end.

(** [GET /] *)
Definition info (db : database) : response * database :=
  (create_success_response
     (InfoBody "String Storage API with SQLite"
        (DatabaseManager.database_path db_manager)
        [ ("POST /store?index=<key>&data=<value>"%string,
           "Сохранить строку"%string);
          ("GET /get?index=<key>"%string, "Получить строку"%string);
          ("GET /list"%string, "Список всех индексов с метаданными"%string);
          ("DELETE /delete?index=<key>"%string, "Удалить строку"%string);
          ("GET /stats"%string, "Статистика базы данных"%string) ]
        "Используйте параметры запроса index и data") 200, db).

(** The requests the blueprint routes, and the handler of each. *)
Inductive request : Type :=
| POST_store (a : args)
| GET_get (a : args)
| GET_list
| DELETE_delete (a : args)
| GET_stats
| GET_root.

Definition handle (env : Service.environment) (r : request) (db : database)
  : response * database :=
  match r with
  | POST_store a => store_string (Service.CURRENT_TIMESTAMP env) a db
  | GET_get a => get_string a db
  | GET_list => list_indices db
  | DELETE_delete a => delete_string a db
  | GET_stats => get_stats (Service.path_exists env) db
  | GET_root => info db
  end.

(** No row has an empty value. *)
Definition values_not_empty (db : database) : Prop :=
  Forall (fun r => data r <> ""%string) (strings db).

(** The tables the routes can bring about, from the empty one. *)
Inductive served : database -> Prop :=
| served_init : served (DatabaseManager.init_database None)
| served_handle : forall env r db,
    served db -> served (snd (handle env r db)).

End Routes.

(** ** The database files behind the managers *)

Module Files.
Import Sqlite.

(** What a path holds: nothing, a database file without the table
    [strings], or a database file with it. *)
Inductive file : Type :=
| NoFile
| NoTable
| Table (db : database).

Definition file_system : Type := string -> file.

Definition write (path : string) (f : file) (fs : file_system) : file_system :=
  fun q => if String.eqb q path then f else fs q.

Definition memory : string := ":memory:".

(** [sqlite3.connect(path)]: [":memory:"] is a new, empty database private
    to the connection; any other path is the file there, created empty when
    there is none. *)
Definition connect (path : string) (fs : file_system) : file * file_system :=
  if String.eqb path memory then (NoTable, fs)
  else
    match fs path with
    | NoFile => (NoTable, write path NoTable fs)
    | f => (f, fs)
    end.

(** [conn.commit(); conn.close()]: the table goes to the file; a database
    in memory is gone with its connection. *)
Definition commit (path : string) (db : database) (fs : file_system)
  : file_system :=
  if String.eqb path memory then fs else write path (Table db) fs.

(** [os.path.exists(path)] *)
Definition exists_ (path : string) (fs : file_system) : bool :=
  match fs path with
  | NoFile => false
  | _ => true
  end.

(** What a call can raise: [sqlite3.OperationalError] (no such table), or
    an exception of the method's own. *)
Inductive error : Type :=
| OperationalError
| Python (e : exn).

(** [init_database] on the manager's path. *)
Definition init_database (self : DatabaseManager.t) (fs : file_system)
  : file_system :=
  let path := DatabaseManager.database_path self in
  let '(f, fs1) := connect path fs in
  let table :=
    DatabaseManager.init_database
      (match f with Table db => Some db | _ => None end) in
  commit path table fs1.

(** [DatabaseManager(database_path)]: [__init__] keeps the path and runs
    [init_database]. *)
Definition new (database_path : string) (fs : file_system)
  : DatabaseManager.t * file_system :=
  let self := DatabaseManager.mk_manager database_path in
  (self, init_database self fs).

(** A method of the manager: [get_connection()], then its statements, which
    fail on a database without the table; what an exception interrupts is
    not committed. *)
Definition call {A : Type} (self : DatabaseManager.t)
  (method : database -> outcome A * database) (fs : file_system)
  : (A + error) * file_system :=
  let path := DatabaseManager.database_path self in
  let '(f, fs1) := connect path fs in
  match f with
  | Table db =>
      match method db with
      | (Returns a, db') => (inl a, commit path db' fs1)
      | (Raises e, _) => (inr (Python e), fs1)
      end
  | _ => (inr OperationalError, fs1)
  end.

Definition store_string (self : DatabaseManager.t) (now : timestamp)
  (index data : string) (fs : file_system) :=
  call self (DatabaseManager.store_string now index data) fs.

Definition get_string (self : DatabaseManager.t) (index : string)
  (fs : file_system) :=
  call self (DatabaseManager.get_string index) fs.

Definition delete_string (self : DatabaseManager.t) (index : string)
  (fs : file_system) :=
  call self (DatabaseManager.delete_string index) fs.

Definition list_all_indices (self : DatabaseManager.t) (fs : file_system) :=
  call self DatabaseManager.list_all_indices fs.

Definition get_statistics (self : DatabaseManager.t) (fs : file_system) :=
  call self
    (DatabaseManager.get_statistics self
       (exists_ (DatabaseManager.database_path self)
                (snd (connect (DatabaseManager.database_path self) fs))))
    fs.

(** The file at [path] is a database with the table [strings]. *)
Definition initialised (path : string) (fs : file_system) : Prop :=
  exists db, fs path = Table db.

End Files.

(** ** Start-up: module [main.py] *)

Module Main.

(** The path of the manager [main] builds:
    [DatabaseManager(get_config().DATABASE_PATH)]. *)
Definition database_path (env : ConfigModule.environ) : string :=
  ConfigModule.DATABASE_PATH (ConfigModule.get_config env None).

End Main.

(** * Properties *)

(** ** Facts about the engine *)

Section SqliteFacts.
Import Sqlite.

Lemma key_is_true (k : string) (r : row) : key_is k r = true <-> index_key r = k.
Proof. unfold key_is. apply String.eqb_eq. Qed.

Lemma key_is_false (k : string) (r : row) : key_is k r = false <-> index_key r <> k.
Proof. unfold key_is. apply String.eqb_neq. Qed.

Lemma filter_none {A : Type} (f : A -> bool) (l : list A) :
  existsb f l = false -> filter f l = [].
Proof.
  induction l as [|x l IH]; simpl; [reflexivity|].
  intros H. apply orb_false_iff in H as [Hx Hl].
  rewrite Hx. auto.
Qed.

Lemma filter_all {A : Type} (f : A -> bool) (l : list A) :
  existsb f l = false -> filter (fun x => negb (f x)) l = l.
Proof.
  induction l as [|x l IH]; simpl; [reflexivity|].
  intros H. apply orb_false_iff in H as [Hx Hl].
  rewrite Hx. simpl. f_equal. auto.
Qed.

Lemma filter_some {A : Type} (f : A -> bool) (l : list A) :
  existsb f l = true -> exists x l', filter f l = x :: l'.
Proof.
  induction l as [|x l IH]; simpl; [discriminate|].
  destruct (f x); eauto.
Qed.

Lemma has_key_In (k : string) (db : database) :
  has_key k db = true <-> In k (map index_key (strings db)).
Proof.
  unfold has_key. rewrite existsb_exists, in_map_iff. split.
  - intros (r & Hin & Hk). exists r. split; [now apply key_is_true | exact Hin].
  - intros (r & Hk & Hin). exists r. split; [exact Hin | now apply key_is_true].
Qed.

Lemma INSERT_absent (now : timestamp) (k v : string) (db : database) :
  has_key k db = false ->
  INSERT now k v db =
    inr (mk_database
           (strings db ++
              [mk_row (Z.max (max_rowid (strings db)) (sqlite_sequence db) + 1)
                      k v now now])
           (Z.max (max_rowid (strings db)) (sqlite_sequence db) + 1)).
Proof. unfold INSERT, has_key. intros ->. reflexivity. Qed.

Lemma INSERT_present (now : timestamp) (k v : string) (db : database) :
  has_key k db = true -> INSERT now k v db = inl IntegrityError.
Proof. unfold INSERT, has_key. intros ->. reflexivity. Qed.

(** The rows an UPDATE leaves alone, and the ones it rewrites. *)
Lemma UPDATE_others (now : timestamp) (v k : string) (l : list row) :
  existsb (key_is k) l = false ->
  map (fun r => if key_is k r then set_data now v r else r) l = l.
Proof.
  induction l as [|x l IH]; simpl; [reflexivity|].
  intros H. apply orb_false_iff in H as [Hx Hl].
  rewrite Hx. f_equal. auto.
Qed.

Lemma UPDATE_selected (now : timestamp) (v k : string) (l : list row) :
  filter (key_is k) (map (fun r => if key_is k r then set_data now v r else r) l)
  = map (set_data now v) (filter (key_is k) l).
Proof.
  induction l as [|x l IH]; simpl; [reflexivity|].
  destruct (key_is k x) eqn:Hx.
  - assert (key_is k (set_data now v x) = true) as -> by exact Hx.
    simpl. f_equal. exact IH.
  - rewrite Hx. exact IH.
Qed.

Lemma UPDATE_frame (now : timestamp) (v k : string) (l : list row) :
  filter (fun r => negb (key_is k r))
         (map (fun r => if key_is k r then set_data now v r else r) l)
  = filter (fun r => negb (key_is k r)) l.
Proof.
  induction l as [|x l IH]; simpl; [reflexivity|].
  destruct (key_is k x) eqn:Hx.
  - assert (key_is k (set_data now v x) = true) as -> by exact Hx.
    simpl. exact IH.
  - rewrite Hx. simpl. f_equal. exact IH.
Qed.

Lemma UPDATE_keys (now : timestamp) (v k : string) (db : database) :
  map index_key (strings (UPDATE now v k db)) = map index_key (strings db).
Proof.
  unfold UPDATE. simpl. rewrite map_map. apply map_ext.
  intros r. destruct (key_is k r); reflexivity.
Qed.

Lemma has_key_UPDATE (now : timestamp) (v k k' : string) (db : database) :
  has_key k' (UPDATE now v k db) = has_key k' db.
Proof.
  apply eq_true_iff_eq. rewrite !has_key_In, UPDATE_keys. reflexivity.
Qed.

Lemma has_key_DELETE (k : string) (db : database) :
  has_key k (DELETE k db) = false.
Proof.
  unfold has_key, DELETE. simpl.
  induction (strings db) as [|x l IH]; simpl; [reflexivity|].
  destruct (key_is k x) eqn:Hx; simpl; [exact IH|].
  rewrite Hx. exact IH.
Qed.

(** With unique keys the rows of one key are at most one, at a place the
    rest of the table does not mention the key. *)
Lemma UNIQUE_split (k : string) (l : list row) :
  NoDup (map index_key l) -> existsb (key_is k) l = true ->
  exists l1 r l2,
    l = l1 ++ r :: l2 /\ index_key r = k /\
    existsb (key_is k) l1 = false /\ existsb (key_is k) l2 = false.
Proof.
  induction l as [|x l IH]; simpl; [discriminate|].
  intros Hnd Hex. inversion Hnd as [|? ? Hnotin Hnd']; subst.
  destruct (key_is k x) eqn:Hx.
  - exists [], x, l. repeat split; [now apply key_is_true|].
    destruct (existsb (key_is k) l) eqn:Hl; [|reflexivity].
    exfalso. apply Hnotin. apply key_is_true in Hx. rewrite Hx.
    apply (proj1 (has_key_In k (mk_database l 0))). exact Hl.
  - simpl in Hex. destruct (IH Hnd' Hex) as (l1 & r & l2 & -> & Hr & H1 & H2).
    exists (x :: l1), r, l2. simpl. rewrite Hx, H1. auto.
Qed.

End SqliteFacts.

(** ** Facts about ORDER BY *)

Section OrderByFacts.
Import Sqlite.

Lemma insert_desc_perm (r : row) (l : list row) :
  Permutation (insert_desc r l) (r :: l).
Proof.
  induction l as [|x l IH]; simpl; [apply Permutation_refl|].
  destruct (created_at x <=? created_at r); [apply Permutation_refl|].
  eapply perm_trans; [apply perm_skip, IH | apply perm_swap].
Qed.

Lemma ORDER_BY_perm (t : list row) :
  Permutation (ORDER_BY_created_at_DESC t) t.
Proof.
  induction t as [|r t IH]; simpl; [constructor|].
  eapply perm_trans; [apply insert_desc_perm | apply perm_skip, IH].
Qed.

Lemma ORDER_BY_length (t : list row) :
  List.length (ORDER_BY_created_at_DESC t) = List.length t.
Proof. apply Permutation_length, ORDER_BY_perm. Qed.

Lemma insert_desc_sorted (r : row) (l : list row) :
  StronglySorted newer_or_equal l ->
  StronglySorted newer_or_equal (insert_desc r l).
Proof.
  induction 1 as [|x l Hs IH Hx]; simpl.
  - repeat constructor.
  - destruct (created_at x <=? created_at r) eqn:Hle.
    + apply Z.leb_le in Hle. constructor; [constructor; assumption|].
      constructor; [exact Hle|].
      eapply Forall_impl; [|exact Hx].
      unfold newer_or_equal. intros; lia.
    + apply Z.leb_gt in Hle. constructor; [exact IH|].
      eapply Permutation_Forall;
        [apply Permutation_sym, insert_desc_perm|].
      constructor; [unfold newer_or_equal; lia | exact Hx].
Qed.

Lemma ORDER_BY_sorted (t : list row) :
  StronglySorted newer_or_equal (ORDER_BY_created_at_DESC t).
Proof.
  induction t as [|r t IH]; simpl; [constructor|].
  now apply insert_desc_sorted.
Qed.

(** Stability: the rows of one creation time keep their scan order. *)
Lemma insert_desc_stable (c : timestamp) (r : row) (l : list row) :
  StronglySorted newer_or_equal l ->
  filter (fun x => created_at x =? c) (insert_desc r l)
  = filter (fun x => created_at x =? c) (r :: l).
Proof.
  induction 1 as [|x l Hs IH Hx]; [reflexivity|].
  cbn [insert_desc].
  destruct (created_at x <=? created_at r) eqn:Hle; [reflexivity|].
  apply Z.leb_gt in Hle.
  cbn [filter] in *. rewrite IH.
  destruct (created_at r =? c) eqn:Hr; [|reflexivity].
  apply Z.eqb_eq in Hr.
  destruct (created_at x =? c) eqn:Hxc; [|reflexivity].
  apply Z.eqb_eq in Hxc. lia.
Qed.

Lemma ORDER_BY_stable (c : timestamp) (t : list row) :
  filter (fun x => created_at x =? c) (ORDER_BY_created_at_DESC t)
  = filter (fun x => created_at x =? c) t.
Proof.
  induction t as [|r t IH]; [reflexivity|].
  cbn [ORDER_BY_created_at_DESC fold_right].
  rewrite insert_desc_stable by apply ORDER_BY_sorted.
  cbn [filter]. fold (ORDER_BY_created_at_DESC t). rewrite IH. reflexivity.
Qed.

(** A row newer than the whole table goes first. *)
Lemma insert_desc_newest (r : row) (l : list row) :
  Forall (fun x => created_at x <= created_at r) l ->
  insert_desc r l = r :: l.
Proof.
  destruct 1 as [|x l Hx _]; simpl; [reflexivity|].
  apply Z.leb_le in Hx. rewrite Hx. reflexivity.
Qed.

(** A row strictly older than the whole table goes last. *)
Lemma insert_desc_oldest (r : row) (l : list row) :
  Forall (fun x => created_at r < created_at x) l ->
  insert_desc r l = l ++ [r].
Proof.
  induction 1 as [|x l Hx _ IH]; simpl; [reflexivity|].
  apply Z.leb_gt in Hx. rewrite Hx, IH. reflexivity.
Qed.

Lemma sum_perm (l l' : list nat) :
  Permutation l l' -> fold_right Nat.add O l = fold_right Nat.add O l'.
Proof. induction 1; simpl; lia. Qed.

Lemma or_0_SUM (l : list nat) : or_0 (SUM l) = fold_right Nat.add O l.
Proof.
  destruct l as [|n l]; [reflexivity|].
  unfold SUM, or_0. destruct (fold_right Nat.add O (n :: l)); reflexivity.
Qed.

End OrderByFacts.

(** ** Facts about the manager's operations *)

Section ManagerFacts.
Import Sqlite DatabaseManager.

Lemma store_string_created (now : timestamp) (k v : string) (db : database) :
  has_key k db = false ->
  store_string now k v db =
    (Returns (created_result k v),
     mk_database
       (strings db ++
          [mk_row (Z.max (max_rowid (strings db)) (sqlite_sequence db) + 1)
                  k v now now])
       (Z.max (max_rowid (strings db)) (sqlite_sequence db) + 1)).
Proof.
  intros H. unfold store_string. rewrite (INSERT_absent now k v db H).
  reflexivity.
Qed.

Lemma store_string_updated (now : timestamp) (k v : string) (db : database) :
  has_key k db = true ->
  store_string now k v db = (Returns (updated_result k v), UPDATE now v k db).
Proof.
  intros H. unfold store_string. rewrite (INSERT_present now k v db H).
  reflexivity.
Qed.

Lemma store_string_returns (now : timestamp) (k v : string) (db : database) :
  exists res db', store_string now k v db = (Returns res, db').
Proof.
  destruct (has_key k db) eqn:H.
  - rewrite store_string_updated by exact H. eauto.
  - rewrite store_string_created by exact H. eauto.
Qed.

Lemma has_key_after_store (now : timestamp) (k v : string) (db : database) :
  has_key k (snd (store_string now k v db)) = true.
Proof.
  destruct (has_key k db) eqn:H.
  - rewrite store_string_updated by exact H. simpl.
    rewrite has_key_UPDATE. exact H.
  - rewrite store_string_created by exact H. unfold has_key. simpl.
    rewrite existsb_app. simpl. unfold key_is at 2. simpl.
    rewrite String.eqb_refl. apply orb_true_iff. right. reflexivity.
Qed.

Lemma get_string_spec (k : string) (db : database) :
  get_string k db =
    (Returns (option_map record_of_row (hd_error (filter (key_is k) (strings db)))),
     db).
Proof.
  unfold get_string, fetchone, SELECT_WHERE.
  destruct (filter (key_is k) (strings db)); reflexivity.
Qed.

Lemma get_string_absent (k : string) (db : database) :
  has_key k db = false -> get_string k db = (Returns None, db).
Proof.
  intros H. rewrite get_string_spec, (filter_none _ _ H). reflexivity.
Qed.

Lemma delete_string_absent (k : string) (db : database) :
  has_key k db = false -> delete_string k db = (Returns false, db).
Proof.
  intros H. unfold delete_string, SELECT_COUNT_WHERE.
  rewrite (filter_none _ _ H). reflexivity.
Qed.

Lemma delete_string_present (k : string) (db : database) :
  has_key k db = true -> delete_string k db = (Returns true, DELETE k db).
Proof.
  intros H. unfold delete_string, SELECT_COUNT_WHERE.
  destruct (filter_some _ _ H) as (x & l' & ->). reflexivity.
Qed.

(** Every row of the table after a store was created no later than the
    store, when that held before. *)
Lemma store_string_past (now : timestamp) (k v : string) (db : database) :
  Forall (fun r => created_at r <= now) (strings db) ->
  Forall (fun r => created_at r <= now) (strings (snd (store_string now k v db))).
Proof.
  intros Hpast. destruct (has_key k db) eqn:H.
  - rewrite store_string_updated by exact H. simpl.
    apply Forall_map. eapply Forall_impl; [|exact Hpast].
    intros r Hr. destruct (key_is k r); exact Hr.
  - rewrite store_string_created by exact H. simpl.
    apply Forall_app. split; [exact Hpast|].
    constructor; [simpl; lia | constructor].
Qed.

End ManagerFacts.

(** ** The storage manager's contract *)

Section Contract.
Import Sqlite DatabaseManager Service.

(** C1 (round trip): storing a value under a key the table does not hold,
    the empty key included, and then getting that key returns a record with
    the key, the value as it was stored, and [created_at] equal to
    [updated_at]. *)
Theorem store_then_get_roundtrip
  (now : timestamp) (key value : string) (db : database) :
  has_key key db = false ->
  exists res db' r,
    store_string now key value db = (Returns res, db') /\
    get_string key db' = (Returns (Some r), db') /\
    rec_index r = key /\
    rec_data r = value /\
    rec_created_at r = rec_updated_at r.
Proof.
  intros Habsent.
  rewrite (store_string_created now key value db Habsent).
  eexists; eexists; eexists. split; [reflexivity|].
  rewrite get_string_spec. cbn [strings].
  rewrite filter_app, (filter_none _ _ Habsent).
  cbn [filter app]. unfold key_is at 1. cbn [index_key].
  rewrite String.eqb_refl. cbn.
  repeat split; reflexivity.
Qed.

Lemma store_then_get_roundtrip_witness :
  has_key "" Sqlite.empty = false /\
  exists res db' r,
    store_string 7 "" "hello" Sqlite.empty = (Returns res, db') /\
    get_string "" db' = (Returns (Some r), db') /\
    rec_index r = ""%string /\
    rec_data r = "hello"%string /\
    rec_created_at r = rec_updated_at r.
Proof.
  split; [reflexivity|].
  apply (store_then_get_roundtrip 7 "" "hello" Sqlite.empty). reflexivity.
Defined.

(** C2 (update preserves creation time): when the clock does not go back
    between two stores of one key, the second store reports an update and
    leaves the column of keys as it was (no second row), and getting the key
    then returns the second value, the [created_at] the record had after the
    first store, and an [updated_at] that is not earlier than it. *)
Theorem update_preserves_created_at
  (t1 t2 : timestamp) (key v1 v2 : string) (db : database) :
  t1 <= t2 ->
  Forall (fun r => created_at r <= t1) (strings db) ->
  exists res1 db1 rec1 res2 db2 rec2,
    store_string t1 key v1 db = (Returns res1, db1) /\
    get_string key db1 = (Returns (Some rec1), db1) /\
    store_string t2 key v2 db1 = (Returns res2, db2) /\
    action res2 = "updated"%string /\
    status_code res2 = 200 /\
    map index_key (strings db2) = map index_key (strings db1) /\
    get_string key db2 = (Returns (Some rec2), db2) /\
    rec_data rec2 = v2 /\
    rec_created_at rec2 = rec_created_at rec1 /\
    rec_created_at rec2 <= rec_updated_at rec2.
Proof.
  intros Hclock Hpast.
  destruct (store_string_returns t1 key v1 db) as (res1 & db1 & Hs1).
  pose proof (has_key_after_store t1 key v1 db) as Hk1.
  pose proof (store_string_past t1 key v1 db Hpast) as Hpast1.
  rewrite Hs1 in Hk1, Hpast1. cbn [snd] in Hk1, Hpast1.
  destruct (filter_some _ _ Hk1) as (r1 & l' & Hsel).
  assert (created_at r1 <= t1) as Hr1.
  { assert (In r1 (filter (key_is key) (strings db1))) as Hin
      by (rewrite Hsel; left; reflexivity).
    apply filter_In in Hin as [Hin _].
    exact (proj1 (Forall_forall _ _) Hpast1 r1 Hin). }
  exists res1, db1, (record_of_row r1), (updated_result key v2),
    (UPDATE t2 v2 key db1), (record_of_row (set_data t2 v2 r1)).
  split; [exact Hs1|].
  split; [rewrite get_string_spec, Hsel; reflexivity|].
  split; [apply store_string_updated; exact Hk1|].
  split; [reflexivity|]. split; [reflexivity|].
  split; [apply UPDATE_keys|].
  split.
  { rewrite get_string_spec. unfold UPDATE. cbn [strings].
    rewrite UPDATE_selected, Hsel. reflexivity. }
  cbn. repeat split; lia.
Qed.

Lemma update_preserves_created_at_witness :
  10 <= 12 /\
  Forall (fun r => created_at r <= 10) (strings demo_database) /\
  exists res1 db1 rec1 res2 db2 rec2,
    store_string 10 "b" "hello" demo_database = (Returns res1, db1) /\
    get_string "b" db1 = (Returns (Some rec1), db1) /\
    store_string 12 "b" "hi" db1 = (Returns res2, db2) /\
    action res2 = "updated"%string /\
    status_code res2 = 200 /\
    map index_key (strings db2) = map index_key (strings db1) /\
    get_string "b" db2 = (Returns (Some rec2), db2) /\
    rec_data rec2 = "hi"%string /\
    rec_created_at rec2 = rec_created_at rec1 /\
    rec_created_at rec2 <= rec_updated_at rec2.
Proof.
  assert (Forall (fun r => created_at r <= 10) (strings demo_database)) as Hpast
    by (cbn; repeat constructor; cbn; lia).
  split; [lia|]. split; [exact Hpast|].
  apply (update_preserves_created_at 10 12 "b" "hello" "hi" demo_database);
    [lia | exact Hpast].
Defined.

(** C3 (created or updated): a store returns, with action ["created"] and
    status 201 exactly when the table did not hold the key, with action
    ["updated"] and status 200 exactly when it did; the result carries the key
    and the length of the value, and depends on the value through its length
    alone. *)
Theorem store_result_reports_branch
  (now : timestamp) (key value : string) (db : database) :
  exists res db',
    store_string now key value db = (Returns res, db') /\
    (action res = "created"%string <-> has_key key db = false) /\
    (status_code res = 201 <-> has_key key db = false) /\
    (action res = "updated"%string <-> has_key key db = true) /\
    (status_code res = 200 <-> has_key key db = true) /\
    index res = key /\
    DatabaseManager.length res = len value /\
    (forall value', len value' = len value ->
       fst (store_string now key value' db) = Returns res).
Proof.
  destruct (has_key key db) eqn:H.
  - exists (updated_result key value), (UPDATE now value key db).
    split; [apply store_string_updated; exact H|].
    cbn. repeat split; try discriminate; try reflexivity.
    intros value' Hlen. rewrite store_string_updated by exact H.
    cbn. unfold updated_result. rewrite Hlen. reflexivity.
  - eexists (created_result key value), _.
    split; [apply store_string_created; exact H|].
    cbn. repeat split; try discriminate; try reflexivity.
    intros value' Hlen. rewrite store_string_created by exact H.
    cbn. unfold created_result. rewrite Hlen. reflexivity.
Qed.

(** C4 (absence is a result): each of get and delete returns and never
    raises; for a key the table does not hold, get returns [None] and delete
    returns [False], both leaving the table as it is; for a key it holds,
    delete returns [True] and leaves no row with the key, so that get then
    returns [None] and a second delete returns [False] and changes nothing. *)
Theorem absence_is_a_result (key : string) (db : database) :
  (exists r, get_string key db = (Returns r, db)) /\
  (exists b db', delete_string key db = (Returns b, db')) /\
  (has_key key db = false ->
     get_string key db = (Returns None, db) /\
     delete_string key db = (Returns false, db)) /\
  (has_key key db = true ->
     exists db',
       delete_string key db = (Returns true, db') /\
       has_key key db' = false /\
       get_string key db' = (Returns None, db') /\
       delete_string key db' = (Returns false, db')).
Proof.
  split; [rewrite get_string_spec; eauto|].
  split.
  { destruct (has_key key db) eqn:H.
    - rewrite delete_string_present by exact H. eauto.
    - rewrite delete_string_absent by exact H. eauto. }
  split.
  - intros H. split; [now apply get_string_absent | now apply delete_string_absent].
  - intros H. exists (DELETE key db).
    pose proof (has_key_DELETE key db) as Hgone.
    split; [now apply delete_string_present|].
    split; [exact Hgone|].
    split; [now apply get_string_absent | now apply delete_string_absent].
Qed.

(** The reads leave the table alone. *)
Lemma exec_read_only (self : DatabaseManager.t) (env : environment) (o : op)
  (db : database) :
  match o with Upsert _ _ | Delete _ => True | _ => snd (exec self env o db) = db end.
Proof.
  destruct o; try exact I; cbn.
  - rewrite get_string_spec. reflexivity.
  - reflexivity.
  - reflexivity.
Qed.

Lemma snd_lift {A : Type} (f : A -> response) (x : outcome A * database) :
  snd (lift f x) = snd x.
Proof. destruct x as [[a|e] db]; reflexivity. Qed.

Lemma timestamps_ok_later (now now' : timestamp) (db : database) :
  now <= now' -> timestamps_ok now db -> timestamps_ok now' db.
Proof.
  intros Hle H. eapply Forall_impl; [|exact H]. cbn. intros r Hr. lia.
Qed.

Lemma store_string_timestamps_ok (now : timestamp) (k v : string) (db : database) :
  timestamps_ok now db -> timestamps_ok now (snd (store_string now k v db)).
Proof.
  intros Hok. unfold timestamps_ok in *. destruct (has_key k db) eqn:H.
  - rewrite store_string_updated by exact H. cbn [snd UPDATE strings].
    apply Forall_map. eapply Forall_impl; [|exact Hok].
    intros r Hr. cbn beta in Hr. destruct (key_is k r); cbn; lia.
  - rewrite store_string_created by exact H. cbn [snd strings].
    apply Forall_app. split; [exact Hok|].
    constructor; [cbn; lia | constructor].
Qed.

Lemma delete_string_timestamps_ok (now : timestamp) (k : string) (db : database) :
  timestamps_ok now db -> timestamps_ok now (snd (delete_string k db)).
Proof.
  intros Hok. destruct (has_key k db) eqn:H.
  - rewrite delete_string_present by exact H. cbn [snd DELETE strings].
    unfold timestamps_ok in *. rewrite Forall_forall in *.
    intros r Hr. apply filter_In in Hr as [Hr _]. auto.
  - rewrite delete_string_absent by exact H. exact Hok.
Qed.

Lemma reachable_timestamps_ok (self : DatabaseManager.t) (now : timestamp)
  (db : database) :
  reachable self now db -> timestamps_ok now db.
Proof.
  induction 1 as [now | now db env o Hreach IH Hclock].
  - constructor.
  - apply (timestamps_ok_later _ _ _ Hclock) in IH.
    destruct o; cbn [exec]; rewrite snd_lift.
    + now apply store_string_timestamps_ok.
    + rewrite get_string_spec. exact IH.
    + now apply delete_string_timestamps_ok.
    + exact IH.
    + exact IH.
Qed.

(** C7 (timestamps invariant): in every table reached from the empty one by
    stores, gets, deletes, listings and statistics, made under a clock that
    does not go back from one call to the next, every row has
    [created_at <= updated_at]. *)
Theorem created_at_le_updated_at (self : DatabaseManager.t) (now : timestamp)
  (db : database) :
  reachable self now db ->
  Forall (fun r => created_at r <= updated_at r) (strings db).
Proof.
  intros Hreach. apply reachable_timestamps_ok in Hreach.
  eapply Forall_impl; [|exact Hreach]. cbn. intros r Hr. lia.
Qed.

Lemma demo_database_reachable : reachable demo_manager 9 demo_database.
Proof.
  unfold demo_database.
  apply (reachable_exec demo_manager 6 _ (mk_environment 9 true));
    [|cbn; lia].
  apply (reachable_exec demo_manager 5 _ (mk_environment 6 true));
    [|cbn; lia].
  apply (reachable_exec demo_manager 5 _ (mk_environment 5 true));
    [|cbn; lia].
  apply reachable_init.
Defined.

Lemma created_at_le_updated_at_witness :
  reachable demo_manager 9 demo_database /\
  Forall (fun r => created_at r <= updated_at r) (strings demo_database).
Proof.
  split; [exact demo_database_reachable|].
  apply (created_at_le_updated_at demo_manager 9 demo_database).
  exact demo_database_reachable.
Defined.

Lemma filter_idem {A : Type} (f : A -> bool) (l : list A) :
  filter f (filter f l) = filter f l.
Proof.
  induction l as [|x l IH]; simpl; [reflexivity|].
  destruct (f x) eqn:Hx; simpl; [rewrite Hx, IH|]; auto.
Qed.

Lemma NoDup_map_filter {A B : Type} (g : A -> B) (f : A -> bool) (l : list A) :
  NoDup (map g l) -> NoDup (map g (filter f l)).
Proof.
  induction l as [|x l IH]; simpl; [auto|].
  intros Hnd. inversion Hnd as [|? ? Hnotin Hnd']; subst.
  destruct (f x); simpl; [|auto].
  constructor; [|auto].
  intros Hin. apply Hnotin. apply in_map_iff in Hin as (y & Hy & Hin).
  apply in_map_iff. exists y. split; [exact Hy|].
  apply filter_In in Hin. tauto.
Qed.

Lemma store_string_UNIQUE (now : timestamp) (k v : string) (db : database) :
  UNIQUE_index_key db -> UNIQUE_index_key (snd (store_string now k v db)).
Proof.
  unfold UNIQUE_index_key. intros Hu. destruct (has_key k db) eqn:H.
  - rewrite store_string_updated by exact H. cbn [snd].
    rewrite UPDATE_keys. exact Hu.
  - rewrite store_string_created by exact H. cbn [snd strings].
    rewrite map_app. cbn [map index_key].
    eapply Permutation_NoDup; [apply Permutation_cons_append|].
    constructor; [|exact Hu].
    intros Hin. apply has_key_In in Hin. congruence.
Qed.

Lemma delete_string_UNIQUE (k : string) (db : database) :
  UNIQUE_index_key db -> UNIQUE_index_key (snd (delete_string k db)).
Proof.
  unfold UNIQUE_index_key. intros Hu. destruct (has_key k db) eqn:H.
  - rewrite delete_string_present by exact H. cbn [snd DELETE strings].
    now apply NoDup_map_filter.
  - rewrite delete_string_absent by exact H. exact Hu.
Qed.

(** C8 (single-row effect): on a table with unique keys, a store either
    appends one row with the key (the key was absent) or rewrites the one row
    with the key where it stands, a delete either removes the one row with
    the key or changes nothing, and both leave the rows of every other key as
    they were and the keys unique. *)
Theorem single_row_effect
  (now : timestamp) (key value : string) (db : database) :
  UNIQUE_index_key db ->
  (exists res db',
     store_string now key value db = (Returns res, db') /\
     ((has_key key db = false /\
       exists r, strings db' = strings db ++ [r] /\
                 index_key r = key /\ data r = value)
      \/
      (exists l1 r l2,
         strings db = l1 ++ r :: l2 /\ index_key r = key /\
         strings db' = l1 ++ set_data now value r :: l2)) /\
     others key db' = others key db /\
     UNIQUE_index_key db') /\
  (exists b db',
     delete_string key db = (Returns b, db') /\
     ((b = false /\ db' = db)
      \/
      (b = true /\
       exists l1 r l2,
         strings db = l1 ++ r :: l2 /\ index_key r = key /\
         strings db' = l1 ++ l2)) /\
     others key db' = others key db /\
     UNIQUE_index_key db').
Proof.
  intros Hu. split.
  - pose proof (store_string_UNIQUE now key value db Hu) as Hu'.
    destruct (has_key key db) eqn:H.
    + rewrite store_string_updated in * by exact H. cbn [snd] in Hu'.
      exists (updated_result key value), (UPDATE now value key db).
      split; [reflexivity|]. split; [|split; [|exact Hu']].
      * right. destruct (UNIQUE_split key (strings db) Hu H)
          as (l1 & r & l2 & Heq & Hr & H1 & H2).
        exists l1, r, l2. split; [exact Heq|]. split; [exact Hr|].
        unfold UPDATE. cbn [strings]. rewrite Heq, map_app. cbn [map].
        rewrite (UPDATE_others now value key l1 H1).
        rewrite (UPDATE_others now value key l2 H2).
        apply key_is_true in Hr. rewrite Hr. reflexivity.
      * unfold others, UPDATE. cbn [strings]. apply UPDATE_frame.
    + rewrite store_string_created in * by exact H. cbn [snd] in Hu'.
      eexists (created_result key value), _.
      split; [reflexivity|]. split; [|split; [|exact Hu']].
      * left. split; [reflexivity|]. eexists. split; [reflexivity|].
        split; reflexivity.
      * unfold others. cbn [strings]. rewrite filter_app. cbn [filter].
        unfold key_is at 2. cbn [index_key]. rewrite String.eqb_refl.
        cbn [negb]. apply app_nil_r.
  - pose proof (delete_string_UNIQUE key db Hu) as Hu'.
    destruct (has_key key db) eqn:H.
    + rewrite delete_string_present in * by exact H. cbn [snd] in Hu'.
      exists true, (DELETE key db).
      split; [reflexivity|]. split; [|split; [|exact Hu']].
      * right. split; [reflexivity|].
        destruct (UNIQUE_split key (strings db) Hu H)
          as (l1 & r & l2 & Heq & Hr & H1 & H2).
        exists l1, r, l2. split; [exact Heq|]. split; [exact Hr|].
        unfold DELETE. cbn [strings]. rewrite Heq, filter_app. cbn [filter].
        apply key_is_true in Hr. rewrite Hr. cbn [negb].
        rewrite (filter_all _ _ H1), (filter_all _ _ H2). reflexivity.
      * unfold others, DELETE. cbn [strings]. apply filter_idem.
    + rewrite delete_string_absent in * by exact H.
      exists false, db. split; [reflexivity|].
      split; [left; split; reflexivity|]. split; [reflexivity | exact Hu].
Qed.

Lemma demo_database_UNIQUE : UNIQUE_index_key demo_database.
Proof.
  unfold UNIQUE_index_key. cbn.
  constructor; [intros [H|[]]; discriminate H|].
  constructor; [intros []|]. constructor.
Qed.

Lemma single_row_effect_witness :
  UNIQUE_index_key demo_database /\
  (exists res db',
     store_string 12 "a" "w" demo_database = (Returns res, db') /\
     ((has_key "a" demo_database = false /\
       exists r, strings db' = strings demo_database ++ [r] /\
                 index_key r = "a"%string /\ data r = "w"%string)
      \/
      (exists l1 r l2,
         strings demo_database = l1 ++ r :: l2 /\ index_key r = "a"%string /\
         strings db' = l1 ++ set_data 12 "w" r :: l2)) /\
     others "a" db' = others "a" demo_database /\
     UNIQUE_index_key db') /\
  (exists b db',
     delete_string "a" demo_database = (Returns b, db') /\
     ((b = false /\ db' = demo_database)
      \/
      (b = true /\
       exists l1 r l2,
         strings demo_database = l1 ++ r :: l2 /\ index_key r = "a"%string /\
         strings db' = l1 ++ l2)) /\
     others "a" db' = others "a" demo_database /\
     UNIQUE_index_key db').
Proof.
  split; [exact demo_database_UNIQUE|].
  apply (single_row_effect 12 "a" "w" demo_database).
  exact demo_database_UNIQUE.
Defined.

(** What a listing is: the rows newest first, rows of one creation time in
    table order, each turned into an entry. *)
Lemma list_all_indices_spec (db : database) :
  exists rows,
    list_all_indices db = (Returns (map entry_of_row rows), db) /\
    Permutation rows (strings db) /\
    StronglySorted newer_or_equal rows /\
    (forall c, filter (fun x => created_at x =? c) rows
               = filter (fun x => created_at x =? c) (strings db)).
Proof.
  exists (ORDER_BY_created_at_DESC (strings db)).
  split; [reflexivity|]. split; [apply ORDER_BY_perm|].
  split; [apply ORDER_BY_sorted | intros c; apply ORDER_BY_stable].
Qed.

(** Keys A, B, C stored in that order at three increasing times into the
    empty table are listed C, B, A. *)
Lemma list_newest_first
  (ta tb tc : timestamp) (A B C va vb vc : string) :
  ta < tb -> tb < tc -> A <> B -> A <> C -> B <> C ->
  exists l db,
    list_all_indices
      (snd (store_string tc C vc
        (snd (store_string tb B vb
          (snd (store_string ta A va (init_database None))))))) = (Returns l, db) /\
    map ent_index l = [C; B; A] /\
    map ent_created_at l = [tc; tb; ta].
Proof.
  intros Hab Hbc HAB HAC HBC.
  apply String.eqb_neq in HAB, HAC, HBC.
  rewrite (store_string_created ta A va) by reflexivity. cbn [snd].
  rewrite (store_string_created tb B vb)
    by (unfold has_key, key_is; cbn; rewrite HAB; reflexivity).
  cbn [snd].
  rewrite (store_string_created tc C vc)
    by (unfold has_key, key_is; cbn; rewrite HAC, HBC; reflexivity).
  cbn [snd]. unfold list_all_indices. eexists; eexists.
  split; [reflexivity|].
  cbn [strings init_database Sqlite.empty app ORDER_BY_created_at_DESC
       fold_right insert_desc created_at].
  assert ((tc <=? tb) = false) as -> by (apply Z.leb_gt; lia).
  cbn [insert_desc created_at].
  assert ((tc <=? ta) = false) as -> by (apply Z.leb_gt; lia).
  assert ((tb <=? ta) = false) as -> by (apply Z.leb_gt; lia).
  cbn. split; reflexivity.
Qed.

(** [LENGTH] is [len] on the values that hold no NUL character. *)
Lemma LENGTH_no_NUL (s : string) : no_NUL s = true -> LENGTH s = len s.
Proof.
  induction s as [|c s IH]; cbn; [reflexivity|].
  intros H. apply andb_true_iff in H as [Hc Hs].
  apply negb_true_iff in Hc. rewrite Hc. f_equal. exact (IH Hs).
Qed.

Lemma LENGTH_le_len (s : string) : (LENGTH s <= len s)%nat.
Proof.
  induction s as [|c s IH]; cbn; [lia|].
  destruct (Ascii.eqb c Ascii.zero); unfold len in IH; lia.
Qed.

(** What the statistics are: the number of rows, the sum of the [LENGTH]s
    of the values, and, for a table that is not empty, a row that no row is
    newer than. *)
Lemma get_statistics_spec (self : DatabaseManager.t) (pe : bool) (db : database) :
  exists stats,
    get_statistics self pe db = (Returns stats, db) /\
    total_records stats = List.length (strings db) /\
    total_data_size stats
      = fold_right Nat.add O (map (fun r => LENGTH (data r)) (strings db)) /\
    database_file stats = database_path self /\
    database_exists stats = pe /\
    (strings db = [] -> latest_record stats = None) /\
    (strings db <> [] ->
       exists r,
         In r (strings db) /\
         latest_record stats = Some (mk_latest (index_key r) (created_at r)) /\
         Forall (fun x => created_at x <= created_at r) (strings db)).
Proof.
  unfold get_statistics, SELECT_COUNT, SELECT_SUM_LENGTH, fetchone, LIMIT_1.
  cbn [hd_error]. eexists. split; [reflexivity|]. cbn.
  split; [reflexivity|]. split; [apply or_0_SUM|].
  split; [reflexivity|]. split; [reflexivity|]. split.
  - intros ->. reflexivity.
  - intros Hne.
    pose proof (ORDER_BY_perm (strings db)) as Hperm.
    pose proof (ORDER_BY_sorted (strings db)) as Hsorted.
    destruct (ORDER_BY_created_at_DESC (strings db)) as [|r rows].
    + apply Permutation_nil in Hperm. contradiction.
    + exists r. split; [|split; [reflexivity|]].
      * eapply Permutation_in; [exact Hperm | left; reflexivity].
      * eapply Permutation_Forall; [exact Hperm|].
        inversion Hsorted as [|? ? _ Hall]; subst.
        constructor; [lia | exact Hall].
Qed.

(** C10 (listing and statistics agree): both operations return; the listing
    has [total_records] entries, its [data_length]s add up to
    [total_data_size], and its first entry, when there is one, has the key
    and [created_at] of [latest_record], which is absent otherwise. *)
Theorem list_and_statistics_agree
  (self : DatabaseManager.t) (pe : bool) (db : database) :
  exists entries stats,
    list_all_indices db = (Returns entries, db) /\
    get_statistics self pe db = (Returns stats, db) /\
    List.length entries = total_records stats /\
    fold_right Nat.add O (map data_length entries) = total_data_size stats /\
    latest_record stats =
      match entries with
      | [] => None
      | e :: _ => Some (mk_latest (ent_index e) (ent_created_at e))
      end.
Proof.
  unfold list_all_indices, get_statistics, SELECT_COUNT, SELECT_SUM_LENGTH,
    fetchone, LIMIT_1.
  cbn [hd_error]. eexists; eexists.
  split; [reflexivity|]. split; [reflexivity|]. cbn.
  split; [rewrite length_map; apply ORDER_BY_length|].
  split.
  - rewrite or_0_SUM, map_map. cbn [entry_of_row data_length].
    apply sum_perm, Permutation_map, ORDER_BY_perm.
  - destruct (ORDER_BY_created_at_DESC (strings db)); reflexivity.
Qed.

(** C5 (listing): a value with a NUL character is listed with a length
    shorter than the value.  Storing the four characters [a NUL b c] under
    ["n"] into the empty table reports length 4, and the listing then gives
    the one entry of ["n"] the [data_length] 1: [LENGTH(data)] counts the
    characters before the first NUL, where [len(data)] counts them all. *)
Theorem listed_length_stops_at_NUL :
  exists res db,
    store_string 5 "n" ("a" ++ NUL ++ "bc") (init_database None)
      = (Returns res, db) /\
    DatabaseManager.length res = 4%nat /\
    list_all_indices db = (Returns [mk_entry "n" 5 5 1], db).
Proof.
  eexists; eexists. split; [reflexivity|]. split; reflexivity.
Qed.

(** C6 (statistics): with a value that holds a NUL character the total data
    size is less than the sum of the value lengths.  After storing [xx] under
    ["a"] and the three characters [y NUL z] under ["b"] into the empty table,
    the values have lengths 2 and 3 and the statistics report 2 records and a
    total data size of 3. *)
Theorem total_data_size_stops_at_NUL :
  exists res1 db1 res2 db2 stats,
    store_string 5 "a" "xx" (init_database None) = (Returns res1, db1) /\
    store_string 6 "b" ("y" ++ NUL ++ "z") db1 = (Returns res2, db2) /\
    DatabaseManager.length res1 = 2%nat /\
    DatabaseManager.length res2 = 3%nat /\
    fold_right Nat.add O (map (fun r => len (data r)) (strings db2)) = 5%nat /\
    get_statistics demo_manager true db2 = (Returns stats, db2) /\
    total_records stats = 2%nat /\
    total_data_size stats = 3%nat.
Proof.
  do 5 eexists. split; [reflexivity|]. split; [reflexivity|].
  split; [reflexivity|]. split; [reflexivity|]. split; [reflexivity|].
  split; [reflexivity|]. split; reflexivity.
Qed.

(** On a table whose values hold no NUL character the listing and the
    statistics give the lengths of the values. *)
Lemma list_all_indices_no_NUL (db : database) :
  Forall (fun r => no_NUL (data r) = true) (strings db) ->
  exists rows,
    list_all_indices db
      = (Returns (map (fun r => mk_entry (index_key r) (created_at r)
                                         (updated_at r) (len (data r))) rows),
         db) /\
    Permutation rows (strings db) /\
    StronglySorted newer_or_equal rows.
Proof.
  intros Hnn. exists (ORDER_BY_created_at_DESC (strings db)).
  split; [|split; [apply ORDER_BY_perm | apply ORDER_BY_sorted]].
  unfold list_all_indices. f_equal. f_equal.
  apply map_ext_in. intros r Hr. unfold entry_of_row. f_equal.
  apply LENGTH_no_NUL.
  apply (Permutation_in _ (ORDER_BY_perm (strings db))) in Hr.
  exact (proj1 (Forall_forall _ _) Hnn r Hr).
Qed.

Lemma get_statistics_no_NUL (self : DatabaseManager.t) (pe : bool) (db : database) :
  Forall (fun r => no_NUL (data r) = true) (strings db) ->
  exists stats,
    get_statistics self pe db = (Returns stats, db) /\
    total_records stats = List.length (strings db) /\
    total_data_size stats
      = fold_right Nat.add O (map (fun r => len (data r)) (strings db)).
Proof.
  intros Hnn.
  destruct (get_statistics_spec self pe db) as (stats & Hs & Hn & Hsz & _).
  exists stats. split; [exact Hs|]. split; [exact Hn|].
  rewrite Hsz. f_equal. apply map_ext_in. intros r Hr.
  apply LENGTH_no_NUL. exact (proj1 (Forall_forall _ _) Hnn r Hr).
Qed.

(** X5: the keys of a reachable table are unique. *)
Lemma reachable_UNIQUE (self : DatabaseManager.t) (now : timestamp)
  (db : database) :
  reachable self now db -> UNIQUE_index_key db.
Proof.
  induction 1 as [now | now db env o Hreach IH Hclock].
  - constructor.
  - destruct o; cbn [exec]; rewrite snd_lift.
    + now apply store_string_UNIQUE.
    + rewrite get_string_spec. exact IH.
    + now apply delete_string_UNIQUE.
    + exact IH.
    + exact IH.
Qed.

(** The list of a reachable table is in rowid order: a new row gets a rowid
    above every rowid of the table and goes last. *)
Lemma max_rowid_bound (l : list row) : Forall (fun r => id r <= max_rowid l) l.
Proof.
  induction l as [|x l IH]; [constructor|].
  unfold max_rowid in *. cbn [fold_right].
  constructor; [apply Z.le_max_l|].
  eapply Forall_impl; [|exact IH].
  intros r Hr. cbn beta in Hr. lia.
Qed.

Lemma rowid_order_append (l : list row) (x : row) :
  StronglySorted (fun a b => id a < id b) l ->
  Forall (fun r => id r < id x) l ->
  StronglySorted (fun a b => id a < id b) (l ++ [x]).
Proof.
  induction 1 as [|y l Hs IH Hy]; cbn; intros Hall.
  - repeat constructor.
  - inversion Hall as [|? ? Hyx Hall']; subst.
    constructor; [now apply IH|].
    apply Forall_app. split; [exact Hy | repeat constructor; exact Hyx].
Qed.

Lemma rowid_order_filter (f : row -> bool) (l : list row) :
  StronglySorted (fun a b => id a < id b) l ->
  StronglySorted (fun a b => id a < id b) (filter f l).
Proof.
  induction 1 as [|y l Hs IH Hy]; cbn; [constructor|].
  destruct (f y); [|exact IH].
  constructor; [exact IH|].
  rewrite Forall_forall in *. intros r Hr.
  apply filter_In in Hr as [Hr _]. auto.
Qed.

Lemma rowid_order_UPDATE (now : timestamp) (v k : string) (l : list row) :
  StronglySorted (fun a b => id a < id b) l ->
  StronglySorted (fun a b => id a < id b)
    (map (fun r => if key_is k r then set_data now v r else r) l).
Proof.
  induction 1 as [|y l Hs IH Hy]; cbn [map]; [constructor|].
  constructor; [exact IH|].
  apply Forall_map.
  eapply Forall_impl; [|exact Hy].
  intros r Hr. cbn beta in Hr.
  destruct (key_is k y), (key_is k r); exact Hr.
Qed.

Lemma reachable_rowid_order (self : DatabaseManager.t) (now : timestamp)
  (db : database) :
  reachable self now db -> rowid_order db.
Proof.
  unfold rowid_order.
  induction 1 as [now | now db env o Hreach IH Hclock].
  - constructor.
  - destruct o; cbn [exec]; rewrite snd_lift.
    + destruct (has_key key db) eqn:H.
      * rewrite store_string_updated by exact H.
        now apply rowid_order_UPDATE.
      * rewrite store_string_created by exact H. cbn [snd strings].
        apply rowid_order_append; [exact IH|].
        eapply Forall_impl; [|apply max_rowid_bound].
        intros r Hr. cbn beta in Hr. cbn [id]. lia.
    + rewrite get_string_spec. exact IH.
    + destruct (has_key key db) eqn:H.
      * rewrite delete_string_present by exact H.
        now apply rowid_order_filter.
      * rewrite delete_string_absent by exact H. exact IH.
    + exact IH.
    + exact IH.
Qed.

End Contract.

(** ** More about the manager's operations *)

Section ManagerComposition.
Import Sqlite DatabaseManager Service.

(** The first of the newest rows, by one scan of the table: what
    [ORDER BY created_at DESC LIMIT 1] yields. *)
Lemma hd_insert_desc (r : row) (l : list row) :
  hd_error (insert_desc r l) =
    match hd_error l with
    | None => Some r
    | Some m => if created_at m <=? created_at r then Some r else Some m
    end.
Proof.
  destruct l as [|m l]; cbn; [reflexivity|].
  destruct (created_at m <=? created_at r); reflexivity.
Qed.

Lemma hd_ORDER_BY_strictly_newest (x : row) (l : list row) :
  Forall (fun r => created_at r < created_at x) l ->
  hd_error (fold_right insert_desc [x] l) = Some x.
Proof.
  induction 1 as [|y l Hy _ IH]; cbn [fold_right]; [reflexivity|].
  rewrite hd_insert_desc, IH.
  apply Z.leb_gt in Hy. rewrite Hy. reflexivity.
Qed.

Lemma hd_ORDER_BY_not_newest (x : row) (l : list row) :
  Exists (fun r => created_at x <= created_at r) l ->
  hd_error (fold_right insert_desc [x] l) = hd_error (ORDER_BY_created_at_DESC l).
Proof.
  induction l as [|y l IH]; intros Hex; [inversion Hex|].
  cbn [fold_right ORDER_BY_created_at_DESC]. rewrite !hd_insert_desc.
  fold (ORDER_BY_created_at_DESC l).
  destruct (Exists_dec (fun r => created_at x <= created_at r) l
              (fun r => Z_le_dec (created_at x) (created_at r))) as [Hl|Hl].
  - rewrite (IH Hl). reflexivity.
  - assert (created_at x <= created_at y) as Hy.
    { inversion Hex; subst; [assumption | contradiction]. }
    assert (Forall (fun r => created_at r < created_at x) l) as Hall.
    { apply Forall_forall. intros r Hr.
      destruct (Z_lt_dec (created_at r) (created_at x)) as [|Hge]; [assumption|].
      exfalso. apply Hl. apply Exists_exists. exists r. split; [exact Hr | lia]. }
    rewrite (hd_ORDER_BY_strictly_newest x l Hall).
    apply Z.leb_le in Hy. rewrite Hy.
    pose proof (ORDER_BY_perm l) as Hperm.
    destruct (ORDER_BY_created_at_DESC l) as [|m rows]; [reflexivity|].
    cbn [hd_error].
    assert (created_at m < created_at x) as Hm.
    { apply (proj1 (Forall_forall _ _) Hall).
      eapply Permutation_in; [exact Hperm | left; reflexivity]. }
    apply Z.leb_le in Hy.
    assert ((created_at m <=? created_at y) = true) as -> by (apply Z.leb_le; lia).
    reflexivity.
Qed.

Lemma ORDER_BY_append (x : row) (l : list row) :
  ORDER_BY_created_at_DESC (l ++ [x]) = fold_right insert_desc [x] l.
Proof. unfold ORDER_BY_created_at_DESC. rewrite fold_right_app. reflexivity. Qed.

(** A rewriting of rows that keeps [created_at] goes through the sort. *)
Lemma insert_desc_map (f : row -> row) (r : row) (l : list row) :
  (forall x, created_at (f x) = created_at x) ->
  insert_desc (f r) (map f l) = map f (insert_desc r l).
Proof.
  intros Hf. induction l as [|y l IH]; cbn; [reflexivity|].
  rewrite !Hf. destruct (created_at y <=? created_at r); cbn; [reflexivity|].
  rewrite IH. reflexivity.
Qed.

Lemma ORDER_BY_map (f : row -> row) (l : list row) :
  (forall x, created_at (f x) = created_at x) ->
  ORDER_BY_created_at_DESC (map f l) = map f (ORDER_BY_created_at_DESC l).
Proof.
  intros Hf. induction l as [|y l IH]; cbn; [reflexivity|].
  fold (ORDER_BY_created_at_DESC (map f l)).
  fold (ORDER_BY_created_at_DESC l).
  rewrite IH. now apply insert_desc_map.
Qed.

Lemma latest_record_spec (self : DatabaseManager.t) (pe : bool) (db : database) :
  exists stats,
    get_statistics self pe db = (Returns stats, db) /\
    total_records stats = List.length (strings db) /\
    latest_record stats =
      option_map (fun r => mk_latest (index_key r) (created_at r))
                 (hd_error (ORDER_BY_created_at_DESC (strings db))).
Proof.
  unfold get_statistics, SELECT_COUNT, SELECT_SUM_LENGTH, fetchone, LIMIT_1.
  cbn [hd_error]. eexists. split; [reflexivity|]. cbn.
  split; [reflexivity|].
  destruct (ORDER_BY_created_at_DESC (strings db)); reflexivity.
Qed.

(** The first row with the key after a store. *)
Lemma select_after_store
  (now : timestamp) (key value : string) (db : database) :
  exists r,
    hd_error (filter (key_is key)
                (strings (snd (store_string now key value db)))) = Some r /\
    index_key r = key /\ data r = value /\ updated_at r = now.
Proof.
  destruct (has_key key db) eqn:H.
  - rewrite (store_string_updated now key value db H).
    destruct (filter_some _ _ H) as (r1 & l' & Hsel).
    exists (set_data now value r1). unfold UPDATE. cbn [snd strings].
    rewrite UPDATE_selected, Hsel. cbn.
    repeat split; try reflexivity.
    assert (In r1 (filter (key_is key) (strings db))) as Hin
      by (rewrite Hsel; left; reflexivity).
    apply filter_In in Hin as [_ Hk]. now apply key_is_true.
  - rewrite (store_string_created now key value db H). cbn [snd strings].
    rewrite filter_app, (filter_none _ _ H).
    cbn [filter app]. unfold key_is at 1. cbn [index_key].
    rewrite String.eqb_refl. cbn. eexists. repeat split; reflexivity.
Qed.

(** X1: store then get, whether the key was there or not: the store returns and
    the get that follows returns the key, the stored value and the time of
    the store as [updated_at]. *)
Theorem get_after_store
  (now : timestamp) (key value : string) (db : database) :
  exists res db' r,
    store_string now key value db = (Returns res, db') /\
    get_string key db' = (Returns (Some r), db') /\
    rec_index r = key /\
    rec_data r = value /\
    rec_updated_at r = now.
Proof.
  destruct (store_string_returns now key value db) as (res & db' & Hs).
  destruct (select_after_store now key value db) as (r & Hsel & Hk & Hd & Hu).
  rewrite Hs in Hsel. cbn [snd] in Hsel.
  exists res, db', (record_of_row r).
  split; [exact Hs|]. split.
  - rewrite get_string_spec, Hsel. reflexivity.
  - cbn. repeat split; assumption.
Qed.

(** X2: the record count follows the operations: on a table with unique keys, a
    store adds one to [total_records] exactly when the key was absent, and a
    delete takes one off exactly when the key was present. *)
Theorem count_tracks_store_and_delete
  (self : DatabaseManager.t) (pe : bool) (now : timestamp)
  (key value : string) (db : database) :
  UNIQUE_index_key db ->
  exists before after_store after_delete,
    get_statistics self pe db = (Returns before, db) /\
    fst (get_statistics self pe (snd (store_string now key value db)))
      = Returns after_store /\
    fst (get_statistics self pe (snd (delete_string key db)))
      = Returns after_delete /\
    total_records after_store
      = (total_records before + if has_key key db then 0 else 1)%nat /\
    total_records before
      = (total_records after_delete + if has_key key db then 1 else 0)%nat.
Proof.
  intros Hu.
  destruct (latest_record_spec self pe db) as (sb & Hb & Hnb & _).
  destruct (latest_record_spec self pe (snd (store_string now key value db)))
    as (ss & Hs & Hns & _).
  destruct (latest_record_spec self pe (snd (delete_string key db)))
    as (sd & Hd & Hnd & _).
  exists sb, ss, sd. rewrite Hs, Hd. cbn [fst].
  split; [exact Hb|]. split; [reflexivity|]. split; [reflexivity|].
  rewrite Hnb, Hns, Hnd. destruct (has_key key db) eqn:H.
  - rewrite store_string_updated, delete_string_present by exact H.
    cbn [snd UPDATE DELETE strings]. rewrite length_map.
    split; [lia|].
    destruct (UNIQUE_split key (strings db) Hu H)
      as (l1 & r & l2 & Heq & Hr & H1 & H2).
    rewrite Heq, filter_app. cbn [filter].
    apply key_is_true in Hr. rewrite Hr. cbn [negb].
    rewrite (filter_all _ _ H1), (filter_all _ _ H2).
    rewrite !length_app. cbn [List.length]. lia.
  - rewrite store_string_created, delete_string_absent by exact H.
    cbn [snd strings]. rewrite length_app. cbn [List.length]. lia.
Qed.

Lemma count_tracks_store_and_delete_witness :
  UNIQUE_index_key demo_database /\
  exists before after_store after_delete,
    get_statistics demo_manager true demo_database = (Returns before, demo_database) /\
    fst (get_statistics demo_manager true
           (snd (store_string 12 "c" "w" demo_database)))
      = Returns after_store /\
    fst (get_statistics demo_manager true (snd (delete_string "c" demo_database)))
      = Returns after_delete /\
    total_records after_store
      = (total_records before + if has_key "c" demo_database then 0 else 1)%nat /\
    total_records before
      = (total_records after_delete + if has_key "c" demo_database then 1 else 0)%nat.
Proof.
  split; [exact demo_database_UNIQUE|].
  apply (count_tracks_store_and_delete demo_manager true 12 "c" "w" demo_database).
  exact demo_database_UNIQUE.
Defined.

(** X3: an update does not reorder the listing: storing under a key the table
    holds leaves the keys and creation times of the listing as they were. *)
Theorem update_keeps_listing_order
  (now : timestamp) (key value : string) (db : database) :
  has_key key db = true ->
  exists l l',
    list_all_indices db = (Returns l, db) /\
    fst (list_all_indices (snd (store_string now key value db))) = Returns l' /\
    map ent_index l' = map ent_index l /\
    map ent_created_at l' = map ent_created_at l.
Proof.
  intros H. rewrite (store_string_updated now key value db H).
  unfold list_all_indices, UPDATE. cbn [snd fst strings].
  eexists; eexists. split; [reflexivity|]. split; [reflexivity|].
  rewrite ORDER_BY_map
    by (intros x; destruct (key_is key x); reflexivity).
  rewrite !map_map. split; apply map_ext; intros r;
    destruct (key_is key r); reflexivity.
Qed.

Lemma update_keeps_listing_order_witness :
  has_key "a" demo_database = true /\
  exists l l',
    list_all_indices demo_database = (Returns l, demo_database) /\
    fst (list_all_indices (snd (store_string 12 "a" "w" demo_database)))
      = Returns l' /\
    map ent_index l' = map ent_index l /\
    map ent_created_at l' = map ent_created_at l.
Proof.
  split; [reflexivity|].
  apply (update_keeps_listing_order 12 "a" "w" demo_database). reflexivity.
Defined.

(** X4: the latest record after a key is created: the new key when every row of
    the table is strictly older than the store, and the latest record of
    before when some row is as new as the store or newer (the same second,
    for one). *)
Theorem latest_record_after_create
  (self : DatabaseManager.t) (pe : bool) (now : timestamp)
  (key value : string) (db : database) :
  has_key key db = false ->
  exists before after,
    get_statistics self pe db = (Returns before, db) /\
    fst (get_statistics self pe (snd (store_string now key value db)))
      = Returns after /\
    (Forall (fun r => created_at r < now) (strings db) ->
       latest_record after = Some (mk_latest key now)) /\
    (Exists (fun r => now <= created_at r) (strings db) ->
       latest_record after = latest_record before).
Proof.
  intros H.
  destruct (latest_record_spec self pe db) as (sb & Hb & _ & Hlb).
  destruct (latest_record_spec self pe (snd (store_string now key value db)))
    as (sa & Ha & _ & Hla).
  exists sb, sa. rewrite Ha. cbn [fst].
  split; [exact Hb|]. split; [reflexivity|].
  rewrite Hla, Hlb. rewrite (store_string_created now key value db H).
  cbn [snd strings]. rewrite ORDER_BY_append. split.
  - intros Hall. rewrite hd_ORDER_BY_strictly_newest; [reflexivity|exact Hall].
  - intros Hex. rewrite hd_ORDER_BY_not_newest; [reflexivity|exact Hex].
Qed.

Lemma latest_record_after_create_witness :
  has_key "c" demo_database = false /\
  exists before after,
    get_statistics demo_manager true demo_database = (Returns before, demo_database) /\
    fst (get_statistics demo_manager true
           (snd (store_string 6 "c" "w" demo_database)))
      = Returns after /\
    (Forall (fun r => created_at r < 6) (strings demo_database) ->
       latest_record after = Some (mk_latest "c" 6)) /\
    (Exists (fun r => 6 <= created_at r) (strings demo_database) ->
       latest_record after = latest_record before).
Proof.
  split; [reflexivity|].
  apply (latest_record_after_create demo_manager true 6 "c" "w" demo_database).
  reflexivity.
Defined.

End ManagerComposition.

(** ** The routes *)

Section RouteFacts.
Import Sqlite.

Lemma route_store_valid (now : timestamp) (a : Routes.args) (db : database)
  (k v : string) :
  Routes.args_get "index" a = Some k ->
  Routes.args_get "data" a = Some v ->
  v <> ""%string ->
  Routes.store_string now a db =
    if has_key k db
    then ((Routes.StoreBody (DatabaseManager.updated_result k v), 200),
          UPDATE now v k db)
    else ((Routes.StoreBody (DatabaseManager.created_result k v), 201),
          snd (DatabaseManager.store_string now k v db)).
Proof.
  intros Hk Hv Hne. unfold Routes.store_string. rewrite Hk, Hv.
  destruct v as [|c v]; [congruence|].
  destruct (has_key k db) eqn:H.
  - rewrite store_string_updated by exact H. reflexivity.
  - rewrite store_string_created by exact H. reflexivity.
Qed.

Lemma route_get (a : Routes.args) (db : database) (k : string) :
  Routes.args_get "index" a = Some k ->
  Routes.get_string a db =
    (match hd_error (filter (key_is k) (strings db)) with
     | None => (Routes.ErrorBody (Routes.not_found k), 404)
     | Some r => (Routes.RecordBody (DatabaseManager.record_of_row r), 200)
     end, db).
Proof.
  intros Hk. unfold Routes.get_string. rewrite Hk, get_string_spec.
  destruct (hd_error (filter (key_is k) (strings db))); reflexivity.
Qed.

Lemma route_delete (a : Routes.args) (db : database) (k : string) :
  Routes.args_get "index" a = Some k ->
  Routes.delete_string a db =
    if has_key k db
    then ((Routes.MessageBody (Routes.deleted k), 200), DELETE k db)
    else ((Routes.ErrorBody (Routes.not_found k), 404), db).
Proof.
  intros Hk. unfold Routes.delete_string. rewrite Hk.
  destruct (has_key k db) eqn:H.
  - rewrite delete_string_present by exact H. reflexivity.
  - rewrite delete_string_absent by exact H. reflexivity.
Qed.

(** X6: the store route checks its parameters before it touches the table: it
    answers 400 exactly when [index] is missing or [data] is missing or
    empty, and then leaves the table as it is; otherwise (an empty [index]
    included) it stores, and answers with the manager's result under status
    201 when the key was absent and 200 when it was present. *)
Theorem store_route_validates
  (now : timestamp) (a : Routes.args) (db : database) :
  (Routes.status (fst (Routes.store_string now a db)) = 400 <->
     Routes.args_get "index" a = None \/
     Routes.args_get "data" a = None \/
     Routes.args_get "data" a = Some ""%string) /\
  (Routes.status (fst (Routes.store_string now a db)) = 400 ->
     snd (Routes.store_string now a db) = db) /\
  (forall index data,
     Routes.args_get "index" a = Some index ->
     Routes.args_get "data" a = Some data ->
     data <> ""%string ->
     exists result,
       DatabaseManager.store_string now index data db
         = (Returns result, snd (Routes.store_string now a db)) /\
       fst (Routes.store_string now a db)
         = (Routes.StoreBody result, DatabaseManager.status_code result) /\
       (DatabaseManager.status_code result = 201 <-> has_key index db = false) /\
       (DatabaseManager.status_code result = 200 <-> has_key index db = true)).
Proof.
  assert (forall index data,
            Routes.args_get "index" a = Some index ->
            Routes.args_get "data" a = Some data ->
            data <> ""%string ->
            exists result,
              DatabaseManager.store_string now index data db
                = (Returns result, snd (Routes.store_string now a db)) /\
              fst (Routes.store_string now a db)
                = (Routes.StoreBody result, DatabaseManager.status_code result) /\
              (DatabaseManager.status_code result = 201 <-> has_key index db = false) /\
              (DatabaseManager.status_code result = 200 <-> has_key index db = true))
    as Hvalid.
  { intros k v Hk Hv Hne. rewrite (route_store_valid now a db k v Hk Hv Hne).
    destruct (has_key k db) eqn:H.
    - rewrite store_string_updated by exact H.
      eexists. split; [reflexivity|]. split; [reflexivity|].
      cbn. split; split; intros; try discriminate; reflexivity.
    - rewrite store_string_created by exact H.
      eexists. split; [reflexivity|]. split; [reflexivity|].
      cbn. split; split; intros; try discriminate; reflexivity. }
  split; [|split; [|exact Hvalid]].
  - destruct (Routes.args_get "index" a) as [k|] eqn:Hk.
    + destruct (Routes.args_get "data" a) as [v|] eqn:Hv.
      * destruct (string_dec v "") as [->|Hne].
        -- unfold Routes.store_string. rewrite Hk, Hv. cbn. tauto.
        -- destruct (Hvalid k v eq_refl eq_refl Hne)
             as (res & _ & Hresp & H201 & H200).
           rewrite Hresp. unfold Routes.status. cbn [snd].
           split.
           ++ intros H400. exfalso.
              destruct (has_key k db);
                [ pose proof (proj2 H200 eq_refl) | pose proof (proj2 H201 eq_refl) ];
                congruence.
           ++ intros [H|[H|H]]; try discriminate. congruence.
      * unfold Routes.store_string. rewrite Hk, Hv. cbn. tauto.
    + unfold Routes.store_string. rewrite Hk. cbn. tauto.
  - destruct (Routes.args_get "index" a) as [k|] eqn:Hk.
    + destruct (Routes.args_get "data" a) as [v|] eqn:Hv.
      * destruct (string_dec v "") as [->|Hne].
        -- unfold Routes.store_string. rewrite Hk, Hv. reflexivity.
        -- destruct (Hvalid k v eq_refl eq_refl Hne)
             as (res & _ & Hresp & H201 & H200).
           rewrite Hresp. unfold Routes.status. cbn [snd fst].
           intros H400. exfalso.
           destruct (has_key k db);
             [ pose proof (proj2 H200 eq_refl) | pose proof (proj2 H201 eq_refl) ];
             congruence.
      * unfold Routes.store_string. rewrite Hk, Hv. reflexivity.
    + unfold Routes.store_string. rewrite Hk. reflexivity.
Qed.

(** X7: round trip through the routes: after a store request with [index] and a
    [data] that is not empty, a get request for the same [index] answers 200
    with the key and the data. *)
Theorem route_store_then_get
  (now : timestamp) (a b : Routes.args) (db : database) (k v : string) :
  Routes.args_get "index" a = Some k ->
  Routes.args_get "data" a = Some v ->
  v <> ""%string ->
  Routes.args_get "index" b = Some k ->
  exists r,
    Routes.get_string b (snd (Routes.store_string now a db))
      = ((Routes.RecordBody r, 200), snd (Routes.store_string now a db)) /\
    DatabaseManager.rec_index r = k /\
    DatabaseManager.rec_data r = v.
Proof.
  intros Hk Hv Hne Hb.
  destruct (select_after_store now k v db) as (r & Hsel & Hi & Hd & _).
  assert (snd (Routes.store_string now a db)
          = snd (DatabaseManager.store_string now k v db)) as ->.
  { rewrite (route_store_valid now a db k v Hk Hv Hne).
    destruct (has_key k db) eqn:H; [|reflexivity].
    rewrite store_string_updated by exact H. reflexivity. }
  exists (DatabaseManager.record_of_row r).
  split; [|split; assumption].
  rewrite (route_get b _ k Hb), Hsel. reflexivity.
Qed.

Lemma route_store_then_get_witness :
  Routes.args_get "index" [("index", ""); ("data", "hello")]%string = Some ""%string /\
  Routes.args_get "data" [("index", ""); ("data", "hello")]%string = Some "hello"%string /\
  "hello"%string <> ""%string /\
  Routes.args_get "index" [("index", "")]%string = Some ""%string /\
  exists r,
    Routes.get_string [("index", "")]%string
      (snd (Routes.store_string 12 [("index", ""); ("data", "hello")]%string
              Service.demo_database))
      = ((Routes.RecordBody r, 200),
         snd (Routes.store_string 12 [("index", ""); ("data", "hello")]%string
                Service.demo_database)) /\
    DatabaseManager.rec_index r = ""%string /\
    DatabaseManager.rec_data r = "hello"%string.
Proof.
  split; [reflexivity|]. split; [reflexivity|].
  split; [discriminate|]. split; [reflexivity|].
  apply (route_store_then_get 12 [("index", ""); ("data", "hello")]%string
           [("index", "")]%string Service.demo_database "" "hello");
    [reflexivity | reflexivity | discriminate | reflexivity].
Defined.


(** X9: the delete route: 400 exactly when [index] is missing; for an [index]
    the table does not hold, 404 and the table unchanged; for one it holds,
    200, after which no row has the key and both a second delete and a get
    of it answer 404.  Whatever is not answered 200 leaves the table as it
    is. *)
Theorem delete_route_answers (a : Routes.args) (db : database) :
  (Routes.status (fst (Routes.delete_string a db)) = 400 <->
     Routes.args_get "index" a = None) /\
  (Routes.status (fst (Routes.delete_string a db)) <> 200 ->
     snd (Routes.delete_string a db) = db) /\
  (forall k,
     Routes.args_get "index" a = Some k ->
     (has_key k db = false ->
        fst (Routes.delete_string a db)
          = (Routes.ErrorBody (Routes.not_found k), 404)) /\
     (has_key k db = true ->
        fst (Routes.delete_string a db)
          = (Routes.MessageBody (Routes.deleted k), 200) /\
        has_key k (snd (Routes.delete_string a db)) = false /\
        Routes.status
          (fst (Routes.delete_string a (snd (Routes.delete_string a db)))) = 404 /\
        Routes.status
          (fst (Routes.get_string a (snd (Routes.delete_string a db)))) = 404)).
Proof.
  destruct (Routes.args_get "index" a) as [k|] eqn:Hk.
  - rewrite (route_delete a db k Hk).
    split; [|split].
    + unfold Routes.status. destruct (has_key k db); cbn; split; discriminate.
    + unfold Routes.status. destruct (has_key k db); cbn; [|reflexivity].
      intros Hne. contradiction Hne. reflexivity.
    + intros k' Hk'. injection Hk' as <-. split.
      * intros H. rewrite H. reflexivity.
      * intros H. rewrite H. cbn [fst snd].
        pose proof (has_key_DELETE k db) as Hgone.
        split; [reflexivity|]. split; [exact Hgone|].
        rewrite (route_delete a _ k Hk), Hgone.
        rewrite (route_get a _ k Hk), (filter_none _ _ Hgone).
        split; reflexivity.
  - unfold Routes.delete_string. rewrite Hk. cbn.
    split; [tauto|]. split; [reflexivity|]. discriminate.
Qed.

(** What a request leaves of the table. *)
Lemma route_store_table (now : timestamp) (a : Routes.args) (db : database) :
  snd (Routes.store_string now a db) = db \/
  exists k v,
    v <> ""%string /\
    snd (Routes.store_string now a db)
      = snd (DatabaseManager.store_string now k v db).
Proof.
  destruct (Routes.args_get "index" a) as [k|] eqn:Hk.
  - destruct (Routes.args_get "data" a) as [v|] eqn:Hv.
    + destruct (string_dec v "") as [->|Hne].
      * left. unfold Routes.store_string. rewrite Hk, Hv. reflexivity.
      * right. exists k, v. split; [exact Hne|].
        rewrite (route_store_valid now a db k v Hk Hv Hne).
        destruct (has_key k db) eqn:H; [|reflexivity].
        rewrite store_string_updated by exact H. reflexivity.
    + left. unfold Routes.store_string. rewrite Hk, Hv. reflexivity.
  - left. unfold Routes.store_string. rewrite Hk. reflexivity.
Qed.

Lemma route_delete_table (a : Routes.args) (db : database) :
  snd (Routes.delete_string a db) = db \/
  exists k, snd (Routes.delete_string a db) = DELETE k db.
Proof.
  destruct (Routes.args_get "index" a) as [k|] eqn:Hk.
  - rewrite (route_delete a db k Hk).
    destruct (has_key k db); [right; exists k|left]; reflexivity.
  - left. unfold Routes.delete_string. rewrite Hk. reflexivity.
Qed.

Lemma route_read_table (env : Service.environment) (r : Routes.request)
  (db : database) :
  match r with
  | Routes.POST_store _ | Routes.DELETE_delete _ => True
  | _ => snd (Routes.handle env r db) = db
  end.
Proof.
  destruct r; try exact I; cbn [Routes.handle].
  - destruct (Routes.args_get "index" a) as [k|] eqn:Hk.
    + rewrite (route_get a db k Hk). reflexivity.
    + unfold Routes.get_string. rewrite Hk. reflexivity.
  - reflexivity.
  - reflexivity.
  - reflexivity.
Qed.

Lemma store_string_values_not_empty
  (now : timestamp) (k v : string) (db : database) :
  v <> ""%string -> Routes.values_not_empty db ->
  Routes.values_not_empty (snd (DatabaseManager.store_string now k v db)).
Proof.
  unfold Routes.values_not_empty. intros Hne Hall. destruct (has_key k db) eqn:H.
  - rewrite store_string_updated by exact H. cbn [snd UPDATE strings].
    apply Forall_map. eapply Forall_impl; [|exact Hall].
    intros r Hr. cbn beta in Hr. destruct (key_is k r); [exact Hne | exact Hr].
  - rewrite store_string_created by exact H. cbn [snd strings].
    apply Forall_app. split; [exact Hall|].
    constructor; [exact Hne | constructor].
Qed.

(** X10: what the routes keep of every table they bring about from the empty
    one: no row has an empty value (the store route refuses one; a key may
    be empty), and no two rows have the same key. *)
Theorem served_tables
  (db : database) :
  Routes.served db -> Routes.values_not_empty db /\ UNIQUE_index_key db.
Proof.
  induction 1 as [|env r db Hserved [IHv IHu]].
  - split; constructor.
  - pose proof (route_read_table env r db) as Hread.
    destruct r; cbn beta iota in Hread; try (rewrite Hread; split; assumption).
    + cbn [Routes.handle].
      destruct (route_store_table (Service.CURRENT_TIMESTAMP env) a db)
        as [->|(k & v & Hne & ->)]; [split; assumption|].
      split; [now apply store_string_values_not_empty
             | now apply store_string_UNIQUE].
    + cbn [Routes.handle].
      destruct (route_delete_table a db) as [->|(k & ->)]; [split; assumption|].
      split.
      * unfold Routes.values_not_empty, DELETE in *. cbn [strings].
        rewrite Forall_forall in *. intros r Hr.
        apply filter_In in Hr as [Hr _]. auto.
      * unfold UNIQUE_index_key, DELETE in *. cbn [strings].
        now apply NoDup_map_filter.
Qed.

Lemma served_tables_witness :
  Routes.served
    (snd (Routes.handle (Service.mk_environment 5 true)
            (Routes.POST_store [("index", "a"); ("data", "xx")]%string)
            (DatabaseManager.init_database None))) /\
  (Routes.values_not_empty
     (snd (Routes.handle (Service.mk_environment 5 true)
             (Routes.POST_store [("index", "a"); ("data", "xx")]%string)
             (DatabaseManager.init_database None))) /\
   UNIQUE_index_key
     (snd (Routes.handle (Service.mk_environment 5 true)
             (Routes.POST_store [("index", "a"); ("data", "xx")]%string)
             (DatabaseManager.init_database None)))).
Proof.
  assert (Routes.served
            (snd (Routes.handle (Service.mk_environment 5 true)
                    (Routes.POST_store [("index", "a"); ("data", "xx")]%string)
                    (DatabaseManager.init_database None)))) as Hserved
    by (apply Routes.served_handle, Routes.served_init).
  split; [exact Hserved|].
  apply (served_tables _ Hserved).
Defined.

(** X11: the statuses of the routes: every request is answered 200, 201, 400 or
    404 (the manager raises nothing for the handlers to turn into a 500);
    201 comes from the store route alone; a request answered 400 or 404
    leaves the table as it is, and so does every request but a store and a
    delete. *)
Theorem route_statuses
  (env : Service.environment) (r : Routes.request) (db : database) :
  (Routes.status (fst (Routes.handle env r db)) = 200 \/
   Routes.status (fst (Routes.handle env r db)) = 201 \/
   Routes.status (fst (Routes.handle env r db)) = 400 \/
   Routes.status (fst (Routes.handle env r db)) = 404) /\
  (Routes.status (fst (Routes.handle env r db)) = 201 ->
     exists a, r = Routes.POST_store a) /\
  (Routes.status (fst (Routes.handle env r db)) = 400 \/
   Routes.status (fst (Routes.handle env r db)) = 404 ->
     snd (Routes.handle env r db) = db) /\
  match r with
  | Routes.POST_store _ | Routes.DELETE_delete _ => True
  | _ => snd (Routes.handle env r db) = db
  end.
Proof.
  split; [|split; [|split; [|apply route_read_table]]].
  - destruct r; cbn [Routes.handle].
    + destruct (Routes.args_get "index" a) as [k|] eqn:Hk;
        [destruct (Routes.args_get "data" a) as [v|] eqn:Hv;
         [destruct (string_dec v "") as [->|Hne]|]|].
      * unfold Routes.store_string. rewrite Hk, Hv. cbn. auto.
      * rewrite (route_store_valid _ a db k v Hk Hv Hne).
        destruct (has_key k db); cbn; auto.
      * unfold Routes.store_string. rewrite Hk, Hv. cbn. auto.
      * unfold Routes.store_string. rewrite Hk. cbn. auto.
    + destruct (Routes.args_get "index" a) as [k|] eqn:Hk.
      * rewrite (route_get a db k Hk).
        destruct (hd_error (filter (key_is k) (strings db))); cbn; auto.
      * unfold Routes.get_string. rewrite Hk. cbn. auto.
    + cbn. auto.
    + destruct (Routes.args_get "index" a) as [k|] eqn:Hk.
      * rewrite (route_delete a db k Hk). destruct (has_key k db); cbn; auto.
      * unfold Routes.delete_string. rewrite Hk. cbn. auto.
    + cbn. auto.
    + cbn. auto.
  - destruct r; cbn [Routes.handle]; [eauto| | | | |].
    + destruct (Routes.args_get "index" a) as [k|] eqn:Hk.
      * rewrite (route_get a db k Hk).
        destruct (hd_error (filter (key_is k) (strings db))); cbn; discriminate.
      * unfold Routes.get_string. rewrite Hk. cbn. discriminate.
    + cbn. discriminate.
    + destruct (Routes.args_get "index" a) as [k|] eqn:Hk.
      * rewrite (route_delete a db k Hk).
        destruct (has_key k db); cbn; discriminate.
      * unfold Routes.delete_string. rewrite Hk. cbn. discriminate.
    + cbn. discriminate.
    + cbn. discriminate.
  - pose proof (route_read_table env r db) as Hread.
    destruct r; cbn beta iota in Hread; try (intros _; exact Hread);
      cbn [Routes.handle].
    + destruct (Routes.args_get "index" a) as [k|] eqn:Hk;
        [destruct (Routes.args_get "data" a) as [v|] eqn:Hv;
         [destruct (string_dec v "") as [->|Hne]|]|].
      * unfold Routes.store_string. rewrite Hk, Hv. reflexivity.
      * rewrite (route_store_valid _ a db k v Hk Hv Hne).
        destruct (has_key k db); cbn; intros [H|H]; discriminate H.
      * unfold Routes.store_string. rewrite Hk, Hv. reflexivity.
      * unfold Routes.store_string. rewrite Hk. reflexivity.
    + destruct (Routes.args_get "index" a) as [k|] eqn:Hk.
      * rewrite (route_delete a db k Hk).
        destruct (has_key k db); cbn; [intros [H|H]; discriminate H|reflexivity].
      * unfold Routes.delete_string. rewrite Hk. reflexivity.
Qed.

End RouteFacts.

(** ** The configuration *)

Section ConfigFacts.
Import ConfigModule.

Lemma get_config_cases (env : environ) (config_name : option string) :
  (config_name_of env config_name = "production"%string ->
     get_config env config_name = ProductionConfig env) /\
  (config_name_of env config_name = "testing"%string ->
     get_config env config_name = TestingConfig) /\
  (config_name_of env config_name <> "production"%string ->
   config_name_of env config_name <> "testing"%string ->
     get_config env config_name = DevelopmentConfig).
Proof.
  unfold get_config, config_map. cbn [dict_get].
  set (n := config_name_of env config_name).
  split; [|split].
  - intros ->. reflexivity.
  - intros ->. reflexivity.
  - intros Hp Ht.
    destruct (String.eqb_spec "development" n); [reflexivity|].
    destruct (String.eqb_spec "production" n); [congruence|].
    destruct (String.eqb_spec "testing" n); [congruence|].
    destruct (String.eqb_spec "default" n); reflexivity.
Qed.

(** X12: only the name ["production"] gives a configuration with debug off and
    the host 127.0.0.1: every other name, known or not, and an unset
    FLASK_ENV give debug on and the host 0.0.0.0.  The port is 5000
    throughout, and only ["testing"] sets TESTING. *)
Theorem debug_off_only_in_production
  (env : environ) (config_name : option string) :
  (DEBUG (get_config env config_name) = false <->
     config_name_of env config_name = "production"%string) /\
  (HOST (get_config env config_name) = "127.0.0.1"%string <->
     config_name_of env config_name = "production"%string) /\
  (HOST (get_config env config_name) = "0.0.0.0"%string <->
     config_name_of env config_name <> "production"%string) /\
  (TESTING (get_config env config_name) = true <->
     config_name_of env config_name = "testing"%string) /\
  PORT (get_config env config_name) = 5000.
Proof.
  destruct (get_config_cases env config_name) as (Hp & Ht & Hd).
  destruct (string_dec (config_name_of env config_name) "production") as [Ep|Np].
  - rewrite (Hp Ep), Ep. cbn.
    repeat split; try reflexivity; try discriminate; try congruence.
  - destruct (string_dec (config_name_of env config_name) "testing") as [Et|Nt].
    + rewrite (Ht Et), Et. cbn.
      repeat split; try reflexivity; try discriminate; try congruence.
    + rewrite (Hd Np Nt). cbn.
      repeat split; try reflexivity; try discriminate; try congruence.
Qed.


End ConfigFacts.

(** ** The database files *)

Section FileFacts.
Import Sqlite.



Lemma connect_file (path : string) (fs : Files.file_system) :
  path <> Files.memory ->
  Files.connect path fs =
    match fs path with
    | Files.NoFile => (Files.NoTable, Files.write path Files.NoTable fs)
    | f => (f, fs)
    end.
Proof.
  intros H. unfold Files.connect. apply String.eqb_neq in H. rewrite H.
  reflexivity.
Qed.






(** X14: a manager on [":memory:"], the path of the testing configuration, can
    do nothing: building it leaves no table behind, since every connection
    gets a database of its own, and each of its five operations raises
    [OperationalError] and changes no file. *)
Theorem manager_in_memory_has_no_table
  (env : ConfigModule.environ) (fs : Files.file_system) (now : timestamp)
  (key value : string) :
  ConfigModule.DATABASE_PATH (ConfigModule.get_config env (Some "testing"%string))
    = Files.memory /\
  snd (Files.new Files.memory fs) = fs /\
  Files.store_string (fst (Files.new Files.memory fs)) now key value fs
    = (inr Files.OperationalError, fs) /\
  Files.get_string (fst (Files.new Files.memory fs)) key fs
    = (inr Files.OperationalError, fs) /\
  Files.delete_string (fst (Files.new Files.memory fs)) key fs
    = (inr Files.OperationalError, fs) /\
  Files.list_all_indices (fst (Files.new Files.memory fs)) fs
    = (inr Files.OperationalError, fs) /\
  Files.get_statistics (fst (Files.new Files.memory fs)) fs
    = (inr Files.OperationalError, fs).
Proof.
  split; [reflexivity|]. split; [reflexivity|].
  split; [reflexivity|]. split; [reflexivity|].
  split; [reflexivity|]. split; reflexivity.
Qed.





(** X17: the statistics of a manager either fail for want of the table or say
    that the database exists: [database_exists] is never [False] in an
    answer, and [database_file] is the manager's path. *)
Theorem statistics_say_the_database_exists
  (self : DatabaseManager.t) (fs : Files.file_system) :
  match fst (Files.get_statistics self fs) with
  | inl stats =>
      DatabaseManager.database_exists stats = true /\
      DatabaseManager.database_file stats = DatabaseManager.database_path self /\
      Files.initialised (DatabaseManager.database_path self) fs
  | inr e =>
      e = Files.OperationalError /\
      (DatabaseManager.database_path self = Files.memory \/
       ~ Files.initialised (DatabaseManager.database_path self) fs)
  end.
Proof.
  unfold Files.get_statistics, Files.call.
  set (p := DatabaseManager.database_path self).
  destruct (String.eqb_spec p Files.memory) as [Em|Nm].
  - unfold Files.connect. rewrite Em. cbn. auto.
  - rewrite (connect_file p fs Nm).
    destruct (fs p) as [| |db] eqn:Hp; cbn [fst snd].
    + split; [reflexivity|]. right. intros [db Hdb]. congruence.
    + split; [reflexivity|]. right. intros [db Hdb]. congruence.
    + destruct (get_statistics_spec self (Files.exists_ p fs) db)
        as (stats & Hs & _ & _ & Hfile & Hex & _).
      rewrite Hs. cbn [fst].
      split; [|split; [exact Hfile | exists db; exact Hp]].
      rewrite Hex. unfold Files.exists_. rewrite Hp. reflexivity.
Qed.

End FileFacts.

(** ** A reachable table to try the invariants on *)

Section ReachableWitness.
Import Sqlite Service.

Lemma reachable_UNIQUE_witness :
  reachable demo_manager 9 demo_database /\ UNIQUE_index_key demo_database.
Proof.
  split; [exact demo_database_reachable|].
  apply (reachable_UNIQUE demo_manager 9 demo_database).
  exact demo_database_reachable.
Defined.

End ReachableWitness.
